(** * Worker: supervision of one run of a measurement procedure

    Shallow embedding of [pymeasure/experiment/workers.py] (class [Worker]).

    The Worker is Python 3 code (zero-argument [super()], [QueueHandler] taken
    from [logging.handlers]).  Its methods mutate the Worker object, the
    procedure object it shares with the Results object, and the queues; they
    may raise.  They are embedded as computations of a state-and-exception
    monad over one record that holds all of this state.

    Collaborators whose classes live in other files of the package
    ([StoppableProcess], [Procedure], [Results], [Recorder],
    [TopicQueueHandler]) and the libraries ([zmq], [cloudpickle], [logging])
    appear either as parameters gathered in [Env] or as definitions marked
    as modelled from the specification. *)

From Stdlib Require Import List String ZArith QArith Bool.
Import ListNotations.
Local Open Scope string_scope.
Local Open Scope list_scope.
Local Open Scope Z_scope.

(** ** Python data *)

(** Modelled from the spec: the constants [Procedure.QUEUED], ... of the
    class [Procedure] (module [procedure], not part of this file), an
    "enumerated variant, one of QUEUED, RUNNING, FAILED, ABORTED, FINISHED". *)
Inductive Status : Type := QUEUED | RUNNING | FAILED | ABORTED | FINISHED.

Definition Status_eqb (a b : Status) : bool :=
  match a, b with
  | QUEUED, QUEUED | RUNNING, RUNNING | FAILED, FAILED
  | ABORTED, ABORTED | FINISHED, FINISHED => true
  | _, _ => false
  end.

Definition terminal (s : Status) : bool :=
  match s with FINISHED | ABORTED | FAILED => true | _ => false end.

(** The Python objects that travel as topics and records.  A finite float is
    kept by its exact value. *)
Inductive pyval : Type :=
| PyNone
| PyStr (s : string)
| PyBytes (b : string)
| PyInt (z : Z)
| PyFloat (q : Q)
| PyStatus (s : Status)
| PyObject (id : nat).

(** [v == 'lit'] for a [str] literal: only a [str] with the same characters
    compares equal; in Python 3 a [bytes] object never equals a [str]. *)
Definition py_eq_str (v : pyval) (lit : string) : bool :=
  match v with
  | PyStr s => String.eqb s lit
  | _ => false
  end.

(** The exception classes that the handlers of this file tell apart, and a
    few ordinary ones for the collaborators to raise. *)
Inductive exn : Type :=
| KeyboardInterrupt | SystemExit | GeneratorExit
| NameError | UnboundLocalError | AttributeError
| ValueError | TypeError | ImportError | AssertionError
| PicklingError | ZMQError | RuntimeError.

(** [except (KeyboardInterrupt, SystemExit)] *)
Definition is_cancellation (e : exn) : bool :=
  match e with KeyboardInterrupt | SystemExit => true | _ => false end.

(** [except Exception]: everything but the three classes that derive from
    [BaseException] directly. *)
Definition is_Exception (e : exn) : bool :=
  match e with
  | KeyboardInterrupt | SystemExit | GeneratorExit => false
  | _ => true
  end.

(** [except (NameError, AttributeError)]; [UnboundLocalError] is a subclass
    of [NameError]. *)
Definition is_NameError_or_AttributeError (e : exn) : bool :=
  match e with
  | NameError | UnboundLocalError | AttributeError => true
  | _ => false
  end.

Definition exn_name (e : exn) : string :=
  match e with
  | KeyboardInterrupt => "KeyboardInterrupt" | SystemExit => "SystemExit"
  | GeneratorExit => "GeneratorExit" | NameError => "NameError"
  | UnboundLocalError => "UnboundLocalError"
  | AttributeError => "AttributeError" | ValueError => "ValueError"
  | TypeError => "TypeError" | ImportError => "ImportError"
  | AssertionError => "AssertionError" | PicklingError => "PicklingError"
  | ZMQError => "ZMQError" | RuntimeError => "RuntimeError"
  end.

(** [topic.decode()].  Python 3 [str] has no [decode] method, so the
    attribute lookup raises [AttributeError]; only [bytes] decodes. *)
Definition py_decode (v : pyval) : exn + pyval :=
  match v with
  | PyBytes b => inr (PyStr b)
  | _ => inl AttributeError
  end.

(** ** The task routine *)

(** The hooks of the procedure are code of the user.  What the Worker can
    observe of a hook is the calls it makes on the two callbacks that [run]
    injects ([emit] and [should_stop]), a stop request arriving from outside
    while it runs, and the way it ends.  A hook is the finite tree of these
    interactions; the continuation of an [emit] call is told whether the call
    raised, so a routine may let the exception go or handle it. *)
Inductive hook : Type :=
| HReturn
| HRaise (e : exn)
| HEmit (topic record : pyval) (k : option exn -> hook)
| HShouldStop (k : bool -> hook)
| HStop (k : hook).

(** An [emit] call whose exception, if any, leaves the hook. *)
Definition HEmit_ (topic record : pyval) (k : hook) : hook :=
  HEmit topic record (fun o => match o with Some e => HRaise e | None => k end).

Inductive hook_name : Type := CheckParameters | Startup | Execute | Teardown.

Module Procedure.
(** Modelled from the spec: the class [Procedure] (module [procedure]):
    a validation hook, start/run/teardown hooks and a mutable status field.
    [status_writes] and [calls] are history variables: the values assigned
    to [status] and the hooks invoked, oldest first. *)
Record t : Type := mk {
  module_ : string;
  check_parameters : option exn;
  startup : hook;
  execute : hook;
  shutdown : hook;
  status : Status;
  status_writes : list Status;
  calls : list hook_name
}.

Definition set_status (s : Status) (p : t) : t :=
  mk (module_ p) (check_parameters p) (startup p) (execute p) (shutdown p)
     s (status_writes p ++ [s]) (calls p).

Definition note_call (h : hook_name) (p : t) : t :=
  mk (module_ p) (check_parameters p) (startup p) (execute p) (shutdown p)
     (status p) (status_writes p) (calls p ++ [h]).
End Procedure.

(** ** Channels *)

Record LogRecord : Type := mkLog { levelno : Z; msg : string }.

Definition DEBUG : Z := 10.
Definition INFO : Z := 20.
Definition WARNING : Z := 30.
Definition ERROR : Z := 40.

(** What travels on [recorder_queue]: a record for the Recorder, or the
    sentinel. *)
Inductive result_item : Type :=
| RRecord (record : pyval)
| RSentinel.

(** What travels on [monitor_queue]: a [(topic, record)] pair put by [emit],
    a log record put by the logging handler that [run] installs, or the
    closing [None]. *)
Inductive monitor_item : Type :=
| MPair (topic record : pyval)
| MLog (r : LogRecord)
| MNone.

(** ** The Worker object *)

Module Worker.
(** The attributes of a Worker.  [self.results] is kept through the
    procedure it wraps: [self.procedure] and [self.results.procedure] are
    one object.  [recorder] is [false] for [None] and [true] once [run]
    has started the Recorder; [publisher] is [None], or a socket with the
    flag telling whether [bind] succeeded; [should_stop_flag] is the event
    of [StoppableProcess]; [root_logging] tells whether the global [log]
    of the module is the root logger carrying the two queue handlers.
    The last five fields are history variables. *)
Record t : Type := mk {
  port : option Z;
  procedure : Procedure.t;
  procedures_file : string;
  recorder : bool;
  recorder_queue : list result_item;
  monitor_queue : list monitor_item;
  log_queue : list LogRecord;
  log_level : Z;
  context : bool;
  publisher : option bool;
  should_stop_flag : bool;
  root_logging : bool;
  emitted : list (pyval * pyval);
  published : list (pyval * pyval);
  stop_calls : nat;
  join_calls : list Z;
  shutdown_calls : nat
}.

Definition set_procedure (p : Procedure.t) (w : t) : t :=
  mk (port w) p (procedures_file w) (recorder w) (recorder_queue w)
     (monitor_queue w) (log_queue w) (log_level w) (context w) (publisher w)
     (should_stop_flag w) (root_logging w) (emitted w) (published w)
     (stop_calls w) (join_calls w) (shutdown_calls w).

Definition set_recorder (b : bool) (w : t) : t :=
  mk (port w) (procedure w) (procedures_file w) b (recorder_queue w)
     (monitor_queue w) (log_queue w) (log_level w) (context w) (publisher w)
     (should_stop_flag w) (root_logging w) (emitted w) (published w)
     (stop_calls w) (join_calls w) (shutdown_calls w).

Definition set_recorder_queue (q : list result_item) (w : t) : t :=
  mk (port w) (procedure w) (procedures_file w) (recorder w) q
     (monitor_queue w) (log_queue w) (log_level w) (context w) (publisher w)
     (should_stop_flag w) (root_logging w) (emitted w) (published w)
     (stop_calls w) (join_calls w) (shutdown_calls w).

Definition set_monitor_queue (q : list monitor_item) (w : t) : t :=
  mk (port w) (procedure w) (procedures_file w) (recorder w)
     (recorder_queue w) q (log_queue w) (log_level w) (context w)
     (publisher w) (should_stop_flag w) (root_logging w) (emitted w)
     (published w) (stop_calls w) (join_calls w) (shutdown_calls w).

Definition set_log_queue (q : list LogRecord) (w : t) : t :=
  mk (port w) (procedure w) (procedures_file w) (recorder w)
     (recorder_queue w) (monitor_queue w) q (log_level w) (context w)
     (publisher w) (should_stop_flag w) (root_logging w) (emitted w)
     (published w) (stop_calls w) (join_calls w) (shutdown_calls w).

Definition set_context (b : bool) (w : t) : t :=
  mk (port w) (procedure w) (procedures_file w) (recorder w)
     (recorder_queue w) (monitor_queue w) (log_queue w) (log_level w) b
     (publisher w) (should_stop_flag w) (root_logging w) (emitted w)
     (published w) (stop_calls w) (join_calls w) (shutdown_calls w).

Definition set_publisher (s : option bool) (w : t) : t :=
  mk (port w) (procedure w) (procedures_file w) (recorder w)
     (recorder_queue w) (monitor_queue w) (log_queue w) (log_level w)
     (context w) s (should_stop_flag w) (root_logging w) (emitted w)
     (published w) (stop_calls w) (join_calls w) (shutdown_calls w).

Definition set_should_stop_flag (b : bool) (w : t) : t :=
  mk (port w) (procedure w) (procedures_file w) (recorder w)
     (recorder_queue w) (monitor_queue w) (log_queue w) (log_level w)
     (context w) (publisher w) b (root_logging w) (emitted w)
     (published w) (stop_calls w) (join_calls w) (shutdown_calls w).

Definition set_root_logging (b : bool) (w : t) : t :=
  mk (port w) (procedure w) (procedures_file w) (recorder w)
     (recorder_queue w) (monitor_queue w) (log_queue w) (log_level w)
     (context w) (publisher w) (should_stop_flag w) b (emitted w)
     (published w) (stop_calls w) (join_calls w) (shutdown_calls w).

Definition set_emitted (l : list (pyval * pyval)) (w : t) : t :=
  mk (port w) (procedure w) (procedures_file w) (recorder w)
     (recorder_queue w) (monitor_queue w) (log_queue w) (log_level w)
     (context w) (publisher w) (should_stop_flag w) (root_logging w) l
     (published w) (stop_calls w) (join_calls w) (shutdown_calls w).

Definition set_published (l : list (pyval * pyval)) (w : t) : t :=
  mk (port w) (procedure w) (procedures_file w) (recorder w)
     (recorder_queue w) (monitor_queue w) (log_queue w) (log_level w)
     (context w) (publisher w) (should_stop_flag w) (root_logging w)
     (emitted w) l (stop_calls w) (join_calls w) (shutdown_calls w).

Definition set_stop_calls (n : nat) (w : t) : t :=
  mk (port w) (procedure w) (procedures_file w) (recorder w)
     (recorder_queue w) (monitor_queue w) (log_queue w) (log_level w)
     (context w) (publisher w) (should_stop_flag w) (root_logging w)
     (emitted w) (published w) n (join_calls w) (shutdown_calls w).

Definition set_join_calls (l : list Z) (w : t) : t :=
  mk (port w) (procedure w) (procedures_file w) (recorder w)
     (recorder_queue w) (monitor_queue w) (log_queue w) (log_level w)
     (context w) (publisher w) (should_stop_flag w) (root_logging w)
     (emitted w) (published w) (stop_calls w) l (shutdown_calls w).

Definition set_shutdown_calls (n : nat) (w : t) : t :=
  mk (port w) (procedure w) (procedures_file w) (recorder w)
     (recorder_queue w) (monitor_queue w) (log_queue w) (log_level w)
     (context w) (publisher w) (should_stop_flag w) (root_logging w)
     (emitted w) (published w) (stop_calls w) (join_calls w) n.

Definition status (w : t) : Status := Procedure.status (procedure w).
Definition status_writes (w : t) : list Status :=
  Procedure.status_writes (procedure w).
Definition calls (w : t) : list hook_name := Procedure.calls (procedure w).
End Worker.

(** ** The environment of a Worker

    What the libraries and the parent class do is not decided by this file.
    [tcp] tells whether the import of [zmq] and [cloudpickle] at the head of
    the module succeeded (both names are [None] otherwise).  The other fields
    give the exception, if any, raised by a call: serialising and sending the
    [n]-th emitted event, creating the context and the socket and binding it,
    importing the module of the procedure, and the [n]-th call of the [join]
    of the parent class with a given timeout. *)
Record Env : Type := mkEnv {
  tcp : bool;
  dumps_error : nat -> pyval -> pyval -> option exn;
  send_error : nat -> pyval -> pyval -> option exn;
  context_error : option exn;
  socket_error : option exn;
  bind_error : option exn;
  import_error : option exn;
  process_join : nat -> Z -> option exn
}.

(** ** State and exceptions *)

Inductive result (A : Type) : Type :=
| Returns (a : A)
| Raises (e : exn).
Arguments Returns {A} a.
Arguments Raises {A} e.

Definition M (A : Type) : Type := Worker.t -> result A * Worker.t.

Definition ret {A} (a : A) : M A := fun w => (Returns a, w).
Definition raise {A} (e : exn) : M A := fun w => (Raises e, w).

Definition bind {A B} (c : M A) (k : A -> M B) : M B :=
  fun w =>
    match c w with
    | (Returns a, w') => k a w'
    | (Raises e, w') => (Raises e, w')
    end.

Declare Scope worker_scope.
Delimit Scope worker_scope with worker.
Notation "x <- c ;; k" := (bind c (fun x => k))
  (at level 61, c at next level, right associativity) : worker_scope.
Notation "c ;; k" := (bind c (fun _ => k))
  (at level 61, right associativity) : worker_scope.
Local Open Scope worker_scope.

(** [try: body except ...: handler]; [handler e] is [None] when no clause
    matches [e]. *)
Definition try_except {A} (body : M A) (handler : exn -> option (M A)) : M A :=
  fun w =>
    match body w with
    | (Returns a, w') => (Returns a, w')
    | (Raises e, w') =>
        match handler e with
        | Some h => h w'
        | None => (Raises e, w')
        end
    end.

(** [try: body finally: fin]: [fin] runs on every path; an exception of
    [fin] replaces the pending outcome. *)
Definition try_finally {A} (body : M A) (fin : M unit) : M A :=
  fun w =>
    match body w with
    | (o, w') =>
        match fin w' with
        | (Returns _, w'') => (o, w'')
        | (Raises e, w'') => (Raises e, w'')
        end
    end.

Definition modify (f : Worker.t -> Worker.t) : M unit :=
  fun w => (Returns tt, f w).

Definition get {A} (f : Worker.t -> A) : M A :=
  fun w => (Returns (f w), w).

(** ** Collaborators modelled from the specification *)

(** Modelled from the spec: [StoppableProcess.stop] (module [process]):
    "sets the flag; idempotent".  [stop_calls] counts the invocations. *)
Definition stop : M unit :=
  modify (fun w =>
    Worker.set_should_stop_flag true
      (Worker.set_stop_calls (S (Worker.stop_calls w)) w)).

(** Modelled from the spec: [StoppableProcess.should_stop] (module
    [process]): "non-blocking read of the flag". *)
Definition should_stop : M bool := get Worker.should_stop_flag.

(** Modelled from the spec: [Recorder.handle] (module [listeners]): a
    [results] record is "forwarded synchronously to the Recorder's Event
    Channel".  Before [run] has started the Recorder, [self.recorder] is
    [None] and the attribute lookup raises. *)
Definition recorder_handle (record : pyval) : M unit :=
  fun w =>
    if Worker.recorder w then
      (Returns tt,
       Worker.set_recorder_queue (Worker.recorder_queue w ++ [RRecord record]) w)
    else (Raises AttributeError, w).

(** Modelled from the spec: [Recorder.enqueue_sentinel] (module
    [listeners]): "places the Sentinel on the results Event Channel". *)
Definition recorder_enqueue_sentinel : M unit :=
  fun w =>
    if Worker.recorder w then
      (Returns tt,
       Worker.set_recorder_queue (Worker.recorder_queue w ++ [RSentinel]) w)
    else (Raises AttributeError, w).

(** [self.monitor_queue.put(item)] *)
Definition monitor_queue_put (item : monitor_item) : M unit :=
  modify (fun w =>
    Worker.set_monitor_queue (Worker.monitor_queue w ++ [item]) w).

(** Modelled from the spec: the handlers [TopicQueueHandler(monitor_queue)]
    (module [log]) and [QueueHandler(log_queue)] that [run] installs on the
    root logger: "process-local logging routed into the monitor/log
    channels".  A record passes when its level reaches the level set by
    [log.setLevel(self.log_level)].  Before [run] the global [log] is the
    logger of the module, whose records stay outside the Worker. *)
Definition logged (level : Z) (message : string) (w : Worker.t) : Worker.t :=
  if Worker.root_logging w && (Worker.log_level w <=? level) then
    let r := mkLog level message in
    Worker.set_log_queue (Worker.log_queue w ++ [r])
      (Worker.set_monitor_queue (Worker.monitor_queue w ++ [MLog r]) w)
  else w.

Definition log_ (level : Z) (message : string) : M unit :=
  modify (logged level message).

(** The history of the calls of [emit]. *)
Definition noted (topic record : pyval) (w : Worker.t) : Worker.t :=
  Worker.set_emitted (Worker.emitted w ++ [(topic, record)]) w.

(** [traceback.format_exc()] inside the handler of [e]: never empty. *)
Definition format_exc (e : exn) : string :=
  ("Traceback (most recent call last): " ++ exn_name e)%string.

Section WorkerMethods.

Variable env : Env.

(** *** [emit] *)

(** [data = cloudpickle.dumps((topic, record))] *)
Definition cloudpickle_dumps (topic record : pyval) : M (pyval * pyval) :=
  fun w =>
    if tcp env then
      match dumps_error env (List.length (Worker.emitted w)) topic record with
      | Some e => (Raises e, w)
      | None => (Returns (topic, record), w)
      end
    else (Raises AttributeError, w).

(** [self.publisher.send_multipart(data)] *)
Definition send_multipart (data : pyval * pyval) : M unit :=
  fun w =>
    match Worker.publisher w with
    | None => (Raises AttributeError, w)
    | Some _ =>
        match send_error env (List.length (Worker.emitted w)) (fst data) (snd data) with
        | Some e => (Raises e, w)
        | None =>
            (Returns tt,
             Worker.set_published (Worker.published w ++ [data]) w)
        end
    end.

(** The body of the [try] of [emit]. *)
Definition broadcast (topic record : pyval) : M unit :=
  data <- cloudpickle_dumps topic record ;;
  send_multipart data.

(** The [if]/[elif] of [emit]. *)
Definition route (topic record : pyval) : M unit :=
  if py_eq_str topic "results" then
    recorder_handle record
  else if py_eq_str topic "status" || py_eq_str topic "progress" then
    match py_decode topic with
    | inl e => raise e
    | inr t => monitor_queue_put (MPair t record)
    end
  else ret tt.

Definition emit (topic record : pyval) : M unit :=
  log_ DEBUG "Emitting message" ;;
  modify (noted topic record) ;;
  try_except (broadcast topic record)
    (fun e => if is_NameError_or_AttributeError e then Some (ret tt)
              else None) ;;
  route topic record.

(** *** Running a hook of the procedure *)

Definition outcome (o : result unit) : option exn :=
  match o with
  | Returns _ => None
  | Raises e => Some e
  end.

Fixpoint run_hook (h : hook) : M unit :=
  match h with
  | HReturn => ret tt
  | HRaise e => raise e
  | HEmit topic record k =>
      fun w =>
        match emit topic record w with
        | (o, w') => run_hook (k (outcome o)) w'
        end
  | HShouldStop k =>
      fun w => run_hook (k (Worker.should_stop_flag w)) w
  | HStop k =>
      fun w =>
        match stop w with
        | (_, w') => run_hook k w'
        end
  end.

Definition call_hook (name : hook_name) (h : Procedure.t -> hook) : M unit :=
  fun w =>
    let p := Worker.procedure w in
    run_hook (h p) (Worker.set_procedure (Procedure.note_call name p) w).

(** *** The handlers *)

Definition update_status (status : Status) : M unit :=
  modify (fun w =>
    Worker.set_procedure (Procedure.set_status status (Worker.procedure w)) w) ;;
  emit (PyStr "status") (PyStatus status).

Definition handle_abort : M unit :=
  log_ ERROR "User stopped Worker execution prematurely" ;;
  update_status ABORTED.

(** [e] is the exception being handled, from which [format_exc] takes the
    traceback. *)
Definition handle_error (e : exn) : M unit :=
  log_ ERROR "Worker caught an error" ;;
  emit (PyStr "error") (PyStr (format_exc e)) ;;
  update_status FAILED.

(** *** [shutdown] *)

Definition shutdown : M unit :=
  modify (fun w =>
    Worker.set_shutdown_calls (S (Worker.shutdown_calls w)) w) ;;
  call_hook Teardown Procedure.shutdown ;;
  stopping <- should_stop ;;
  status <- get Worker.status ;;
  (if stopping && Status_eqb status RUNNING then
     update_status ABORTED
   else if Status_eqb status RUNNING then
     update_status FINISHED ;;
     emit (PyStr "progress") (PyFloat (100 # 1))
   else ret tt) ;;
  recorder_enqueue_sentinel ;;
  monitor_queue_put MNone.

(** *** [run] *)

(** The lines of [run] that replace the logging configuration. *)
Definition install_logging : M unit :=
  modify (Worker.set_root_logging true).

(** [Recorder(self.results, self.recorder_queue)] and its [start]. *)
Definition start_recorder : M unit :=
  modify (Worker.set_recorder true).

(** [__import__(self.procedures_file)] *)
Definition import_procedures_file : M unit :=
  match import_error env with
  | Some e => raise e
  | None => ret tt
  end.

Definition zmq_Context : M unit :=
  if tcp env then
    match context_error env with
    | Some e => raise e
    | None => modify (Worker.set_context true)
    end
  else raise AttributeError.

Definition context_socket : M unit :=
  match socket_error env with
  | Some e => raise e
  | None => modify (Worker.set_publisher (Some false))
  end.

Definition publisher_bind : M unit :=
  match bind_error env with
  | Some e => raise e
  | None => modify (Worker.set_publisher (Some true))
  end.

(** [if self.port is not None: try: ... except Exception: ...] *)
Definition connect_publisher : M unit :=
  fun w =>
    match Worker.port w with
    | None => (Returns tt, w)
    | Some _ =>
        try_except
          (zmq_Context ;;
           log_ DEBUG "Worker ZMQ Context" ;;
           context_socket ;;
           publisher_bind ;;
           log_ INFO "Worker connected")
          (fun e =>
             if is_Exception e then
               Some (log_ ERROR "couldn't connect to ZMQ context")
             else None)
          w
    end.

(** Everything of [run] before the status changes.  The two assignments
    that route [should_stop] and [emit] into the procedure have no
    counterpart: a [hook] reaches the Worker through these callbacks. *)
Definition run_setup : M unit :=
  install_logging ;;
  log_ INFO "Worker process started" ;;
  start_recorder ;;
  import_procedures_file ;;
  connect_publisher ;;
  log_ INFO "Worker started running an instance".

(** The [try]/[except]/[except]/[finally] statement that ends [run]. *)
Definition run_supervise : M unit :=
  try_finally
    (try_except
       (call_hook Startup Procedure.startup ;;
        call_hook Execute Procedure.execute)
       (fun e =>
          if is_cancellation e then Some handle_abort
          else if is_Exception e then Some (handle_error e)
          else None))
    (shutdown ;; stop).

Definition run : M unit :=
  run_setup ;;
  update_status RUNNING ;;
  emit (PyStr "progress") (PyFloat (0 # 1)) ;;
  run_supervise.

(** *** [join] *)

(** [super().join(timeout)]: the [join] of [StoppableProcess], whose
    outcome the environment decides call by call. *)
Definition super_join (timeout : Z) : M unit :=
  fun w =>
    let w' := Worker.set_join_calls (Worker.join_calls w ++ [timeout]) w in
    match process_join env (List.length (Worker.join_calls w)) timeout with
    | Some e => (Raises e, w')
    | None => (Returns tt, w')
    end.

Definition join (timeout : Z) : M unit :=
  try_except (super_join timeout)
    (fun e =>
       if is_cancellation e then
         Some (log_ WARNING "User stopped Worker join prematurely" ;;
               stop ;;
               super_join 0)
       else None).

End WorkerMethods.

(** ** Construction *)

(** The argument [results] of the constructor: an instance of [Results],
    which wraps a procedure, or any other object. *)
Inductive results_arg : Type :=
| IsResults (procedure : Procedure.t)
| NotResults (v : pyval).

(** How [Worker(results, log_queue, log_level, port)] ends: with a Worker;
    with the [ValueError] of the [isinstance] test; or with the exception of
    [check_parameters], the procedure object being left as [procedure]. *)
Inductive construction : Type :=
| Constructed (w : Worker.t)
| Rejected (e : exn)
| Invalid (e : exn) (procedure : Procedure.t).

Definition init (results : results_arg) (log_queue : option (list LogRecord))
    (log_level : Z) (port : option Z) : construction :=
  match results with
  | NotResults _ => Rejected ValueError
  | IsResults procedure =>
      let checked := Procedure.note_call CheckParameters procedure in
      match Procedure.check_parameters procedure with
      | Some e => Invalid e checked
      | None =>
          Constructed
            (Worker.mk port (Procedure.set_status QUEUED checked)
               (Procedure.module_ procedure)
               false [] []
               (match log_queue with Some q => q | None => [] end)
               log_level false None false false [] [] 0%nat [] 0%nat)
      end
  end.

(** ** What a step leaves alone *)

(** The items of the monitor channel that are not log records: the pairs
    put by [emit] and the closing markers. *)
Definition events (q : list monitor_item) : list monitor_item :=
  filter (fun i => match i with MLog _ => false | _ => true end) q.

(** The part of the state that logging, the Recorder flag and the Publisher
    never touch. *)
Definition core (w : Worker.t) :=
  (Worker.procedure w, Worker.emitted w, Worker.recorder_queue w,
   events (Worker.monitor_queue w), Worker.shutdown_calls w,
   Worker.stop_calls w, Worker.should_stop_flag w).

(** A computation is quiet when it preserves [core] however it ends. *)
Definition quiet {A} (c : M A) : Prop :=
  forall w, core (snd (c w)) = core w.

(** The state right after the assignment of [update_status]. *)
Definition assigned (status : Status) (w : Worker.t) : Worker.t :=
  Worker.set_procedure (Procedure.set_status status (Worker.procedure w)) w.

(** The first two statements of [shutdown]: the call is counted and the
    teardown hook of the procedure runs. *)
Definition teardown (env : Env) (w : Worker.t) : result unit * Worker.t :=
  call_hook env Teardown Procedure.shutdown
    (Worker.set_shutdown_calls (S (Worker.shutdown_calls w)) w).

(** The log record of the first line of [emit], when the handlers of [run]
    are installed and the level of the Worker lets [DEBUG] through. *)
Definition debug_record (w : Worker.t) : list monitor_item :=
  if Worker.root_logging w && (Worker.log_level w <=? DEBUG) then
    [MLog (mkLog DEBUG "Emitting message")]
  else [].

(** ** Concrete environments, procedures and Workers *)

(** Both libraries imported, nothing fails. *)
Definition quiet_env : Env :=
  mkEnv true (fun _ _ _ => None) (fun _ _ _ => None) None None None None
    (fun _ _ => None).

(** Sending on the socket fails with [zmq.ZMQError]. *)
Definition lossy_env : Env :=
  mkEnv true (fun _ _ _ => None) (fun _ _ _ => Some ZMQError) None None None
    None (fun _ _ => None).

(** The first wait of [join] is interrupted from the keyboard. *)
Definition interrupted_env : Env :=
  mkEnv true (fun _ _ _ => None) (fun _ _ _ => None) None None None None
    (fun n _ => match n with O => Some KeyboardInterrupt | _ => None end).

(** Every call of the parent's [join] is interrupted. *)
Definition insistent_env : Env :=
  mkEnv true (fun _ _ _ => None) (fun _ _ _ => None) None None None None
    (fun _ _ => Some KeyboardInterrupt).

Definition procedure_with (check : option exn) (startup execute teardown : hook)
  : Procedure.t :=
  Procedure.mk "procedures" check startup execute teardown QUEUED [] [].

(** A procedure whose hooks all return at once. *)
Definition idle_procedure : Procedure.t :=
  procedure_with None HReturn HReturn HReturn.

(** A procedure whose main-execution hook raises. *)
Definition failing_procedure : Procedure.t :=
  procedure_with None HReturn (HRaise ValueError) HReturn.

(** A procedure whose main-execution hook reports one result and returns. *)
Definition measuring_procedure : Procedure.t :=
  procedure_with None HReturn
    (HEmit_ (PyStr "results") (PyInt 1) HReturn) HReturn.

(** A procedure whose parameters are not all set. *)
Definition unset_procedure : Procedure.t :=
  procedure_with (Some NameError) HReturn HReturn HReturn.

(** [Worker(Results(procedure, ...))] with the default arguments, for a
    procedure that passes [check_parameters]. *)
Definition worker_of (procedure : Procedure.t) : Worker.t :=
  Worker.mk None
    (Procedure.set_status QUEUED (Procedure.note_call CheckParameters procedure))
    (Procedure.module_ procedure) false [] [] [] INFO false None false false
    [] [] 0%nat [] 0%nat.

(** A Worker in the middle of [run]: handlers installed, Recorder started,
    status [RUNNING]. *)
Definition running (level : Z) (stopping : bool) (w : Worker.t) : Worker.t :=
  Worker.mk (Worker.port w)
    (Procedure.set_status RUNNING (Worker.procedure w))
    (Worker.procedures_file w) true (Worker.recorder_queue w)
    (Worker.monitor_queue w) (Worker.log_queue w) level (Worker.context w)
    (Worker.publisher w) stopping true (Worker.emitted w) (Worker.published w)
    (Worker.stop_calls w) (Worker.join_calls w) (Worker.shutdown_calls w).

(** The same with a bound Publisher. *)
Definition publishing (w : Worker.t) : Worker.t :=
  Worker.set_publisher (Some true) w.

(** ** Three sentences of the specification, as they are worded *)

(** Section 4.1, [emit]: a failure on the Publisher path "is swallowed and
    never affects routine execution or the other channels": whatever the
    [try] body raised, [emit] carries on with its routing. *)
Definition swallows_broadcast_failure (env : Env) (topic record : pyval)
    (w : Worker.t) : Prop :=
  forall e w',
    broadcast env topic record
      (noted topic record (logged DEBUG "Emitting message" w)) = (Raises e, w') ->
    emit env topic record w = route topic record w'.

(** Section 4.1, [join]: when the wait is interrupted by a cancellation
    signal the Worker invokes [stop] once, retries a non-blocking join, and
    "join must never itself crash the caller". *)
Definition join_survives_interruption (env : Env) (timeout : Z)
    (w : Worker.t) : Prop :=
  forall e,
    process_join env (List.length (Worker.join_calls w)) timeout = Some e ->
    is_cancellation e = true ->
    exists w',
      join env timeout w = (Returns tt, w') /\
      Worker.stop_calls w' = S (Worker.stop_calls w) /\
      Worker.join_calls w' = Worker.join_calls w ++ [timeout; 0].

(** An [emit] that "leaves both the results Event Channel and the monitor
    Event Channel unchanged". *)
Definition leaves_channels_unchanged (env : Env) (topic record : pyval)
    (w : Worker.t) : Prop :=
  Worker.recorder_queue (snd (emit env topic record w)) = Worker.recorder_queue w /\
  Worker.monitor_queue (snd (emit env topic record w)) = Worker.monitor_queue w.

(** ** Observations that a computation respects *)

(** [c] respects the observation [f] up to [R]: whatever [c] does and
    however it ends, what [f] shows afterwards is related by [R] to what it
    showed before.  With [eq] the observation is kept; with [once_set] a
    flag that was set stays set. *)
Definition respects {X A : Type} (R : X -> X -> Prop) (f : Worker.t -> X)
    (c : M A) : Prop :=
  forall w, R (f w) (f (snd (c w))).

Definition once_set (before after : bool) : Prop :=
  before = true -> after = true.

(** An observation that reads neither the queues nor the histories of the
    emitted and published events. *)
Definition passive {X : Type} (f : Worker.t -> X) : Prop :=
  (forall q w, f (Worker.set_monitor_queue q w) = f w) /\
  (forall q w, f (Worker.set_log_queue q w) = f w) /\
  (forall q w, f (Worker.set_recorder_queue q w) = f w) /\
  (forall l w, f (Worker.set_emitted l w) = f w) /\
  (forall l w, f (Worker.set_published l w) = f w).

(** What [emit] and the callbacks of a hook leave alone: the procedure with
    its status, the Recorder, the logging set-up, the Publisher, and the
    counts of [shutdown] and [join] calls. *)
Definition control_state (w : Worker.t) :=
  (Worker.procedure w, Worker.recorder w, Worker.port w, Worker.log_level w,
   Worker.root_logging w, Worker.context w, Worker.publisher w,
   Worker.shutdown_calls w, Worker.join_calls w).

(** The routine as the [try] of [run] drives it: [startup], then
    [execute]. *)
Definition routine (env : Env) : M unit :=
  call_hook env Startup Procedure.startup ;;
  call_hook env Execute Procedure.execute.

(** A hook that reports the given records one after the other on the
    topic ['results'] and returns. *)
Fixpoint report_all (records : list pyval) : hook :=
  match records with
  | [] => HReturn
  | r :: rest => HEmit_ (PyStr "results") r (report_all rest)
  end.

(** An environment in which serialising and sending raise nothing but the
    two kinds of exception that [emit] drops. *)
Definition tolerant (env : Env) : Prop :=
  (forall n topic record e,
     dumps_error env n topic record = Some e ->
     is_NameError_or_AttributeError e = true) /\
  (forall n topic record e,
     send_error env n topic record = Some e ->
     is_NameError_or_AttributeError e = true).

(** [cloudpickle.dumps] fails with [PicklingError] on every record. *)
Definition unpicklable_env : Env :=
  mkEnv true (fun _ _ _ => Some PicklingError) (fun _ _ _ => None) None None
    None None (fun _ _ => None).

(** The status of the procedure with the history of its assignments. *)
Definition status_record (w : Worker.t) : Status * list Status :=
  (Worker.status w, Worker.status_writes w).

(** From one status record to the next by at most one assignment, of a
    terminal value. *)
Definition at_most_one_terminal_write (before after : Status * list Status)
  : Prop :=
  after = before \/
  (terminal (fst after) = true /\ snd after = snd before ++ [fst after]).

(** What [shutdown] does once the teardown hook has returned. *)
Definition close (env : Env) : M unit :=
  fun w =>
    ((if Worker.should_stop_flag w && Status_eqb (Worker.status w) RUNNING then
        update_status env ABORTED
      else if Status_eqb (Worker.status w) RUNNING then
        update_status env FINISHED ;;
        emit env (PyStr "progress") (PyFloat (100 # 1))
      else ret tt) ;;
     recorder_enqueue_sentinel ;;
     monitor_queue_put MNone) w.

(** A procedure whose teardown hook raises. *)
Definition stuck_procedure : Procedure.t :=
  procedure_with None HReturn HReturn (HRaise RuntimeError).

(** A procedure whose main-execution hook is interrupted from the
    keyboard, and one whose generator is closed under it. *)
Definition interrupted_procedure : Procedure.t :=
  procedure_with None HReturn (HRaise KeyboardInterrupt) HReturn.

Definition closed_procedure : Procedure.t :=
  procedure_with None HReturn (HRaise GeneratorExit) HReturn.

(** A Worker whose status is already terminal when [shutdown] runs. *)
Definition aborted (w : Worker.t) : Worker.t :=
  Worker.set_procedure (Procedure.set_status ABORTED (Worker.procedure w)) w.

(** The two [except] clauses of [run], applied to the way the routine
    ended. *)
Definition dispatch (env : Env) (r : result unit * Worker.t)
  : result unit * Worker.t :=
  match r with
  | (Returns a, w) => (Returns a, w)
  | (Raises e, w) =>
      if is_cancellation e then handle_abort env w
      else if is_Exception e then handle_error env e w
      else (Raises e, w)
  end.

(** The [finally] clause of [run]. *)
Definition finally_clause (env : Env) : M unit :=
  shutdown env ;; stop.

(** A computation under which a flag of the Worker, once set, stays
    set. *)
Definition keeps_set {A : Type} (flag : Worker.t -> bool) (c : M A) : Prop :=
  respects once_set flag c.

(** The port is taken: [bind] fails with [zmq.ZMQError]. *)
Definition busy_port_env : Env :=
  mkEnv true (fun _ _ _ => None) (fun _ _ _ => None) None None
    (Some ZMQError) None (fun _ _ => None).

(** The module of the procedure cannot be imported. *)
Definition missing_module_env : Env :=
  mkEnv true (fun _ _ _ => None) (fun _ _ _ => None) None None None
    (Some ImportError) (fun _ _ => None).


(** A freshly constructed Worker with a port for the Publisher. *)
Definition with_port (p : Z) (w : Worker.t) : Worker.t :=
  Worker.mk (Some p) (Worker.procedure w) (Worker.procedures_file w)
    (Worker.recorder w) (Worker.recorder_queue w) (Worker.monitor_queue w)
    (Worker.log_queue w) (Worker.log_level w) (Worker.context w)
    (Worker.publisher w) (Worker.should_stop_flag w) (Worker.root_logging w)
    (Worker.emitted w) (Worker.published w) (Worker.stop_calls w)
    (Worker.join_calls w) (Worker.shutdown_calls w).

(** A procedure whose main-execution hook is reached by a stop request,
    polls [should_stop] and returns early when told to stop. *)
Definition polling_procedure : Procedure.t :=
  procedure_with None HReturn
    (HStop (HShouldStop (fun stopping =>
       if stopping then HReturn
       else HEmit_ (PyStr "results") (PyInt 1) HReturn)))
    HReturn.

(** ** Basic facts *)

Lemma events_app (q q' : list monitor_item) :
  events (q ++ q') = events q ++ events q'.
Proof. unfold events. apply filter_app. Qed.

Lemma events_log (q : list monitor_item) (r : LogRecord) :
  events (q ++ [MLog r]) = events q.
Proof. rewrite events_app. simpl. apply app_nil_r. Qed.

Lemma core_logged (level : Z) (message : string) (w : Worker.t) :
  core (logged level message w) = core w.
Proof.
  unfold logged.
  destruct (Worker.root_logging w && (Worker.log_level w <=? level)); auto.
  unfold core; simpl. now rewrite events_log.
Qed.

Lemma quiet_ret {A} (a : A) : quiet (ret a).
Proof. intro w; reflexivity. Qed.

Lemma quiet_raise {A} (e : exn) : quiet (@raise A e).
Proof. intro w; reflexivity. Qed.

Lemma quiet_bind {A B} (c : M A) (k : A -> M B) :
  quiet c -> (forall a, quiet (k a)) -> quiet (bind c k).
Proof.
  intros Hc Hk w. unfold bind.
  specialize (Hc w). destruct (c w) as [[a|e] w1]; simpl in *.
  - now rewrite Hk.
  - exact Hc.
Qed.

Lemma quiet_try_except {A} (c : M A) (h : exn -> option (M A)) :
  quiet c -> (forall e k, h e = Some k -> quiet k) -> quiet (try_except c h).
Proof.
  intros Hc Hh w. unfold try_except.
  specialize (Hc w). destruct (c w) as [[a|e] w1]; simpl in *; auto.
  destruct (h e) as [k|] eqn:E; simpl; auto.
  now rewrite (Hh _ _ E).
Qed.

Lemma quiet_log (level : Z) (message : string) : quiet (log_ level message).
Proof. intro w. apply core_logged. Qed.

Lemma quiet_modify (f : Worker.t -> Worker.t) :
  (forall w, core (f w) = core w) -> quiet (modify f).
Proof. intros H w. apply H. Qed.

Ltac quiet_steps :=
  repeat (first
    [ apply quiet_bind; [| intro ]
    | apply quiet_log | apply quiet_ret | apply quiet_raise
    | apply quiet_modify; intro; reflexivity ]).

Lemma quiet_connect_publisher (env : Env) : quiet (connect_publisher env).
Proof.
  intro w. unfold connect_publisher.
  destruct (Worker.port w); [| reflexivity ].
  apply quiet_try_except.
  - unfold zmq_Context, context_socket, publisher_bind.
    destruct (tcp env), (context_error env), (socket_error env),
      (bind_error env); quiet_steps.
  - intros e k. destruct (is_Exception e); intro E; inversion E.
    apply quiet_log.
Qed.

Lemma quiet_run_setup (env : Env) : quiet (run_setup env).
Proof.
  unfold run_setup, install_logging, start_recorder, import_procedures_file.
  destruct (import_error env); quiet_steps; apply quiet_connect_publisher.
Qed.

Lemma quiet_broadcast (env : Env) (topic record : pyval) :
  quiet (broadcast env topic record).
Proof.
  intro w. unfold broadcast, bind, cloudpickle_dumps, send_multipart.
  destruct (tcp env); [| reflexivity ].
  destruct (dumps_error env _ topic record); [ reflexivity |].
  destruct (Worker.publisher w); [| reflexivity ].
  simpl. destruct (send_error env _ topic record); reflexivity.
Qed.

(** [emit], with the two binds and the handler unfolded. *)
Lemma emit_eq (env : Env) (topic record : pyval) (w : Worker.t) :
  emit env topic record w =
  match broadcast env topic record
          (noted topic record (logged DEBUG "Emitting message" w)) with
  | (Returns _, w') => route topic record w'
  | (Raises e, w') =>
      if is_NameError_or_AttributeError e then route topic record w'
      else (Raises e, w')
  end.
Proof.
  unfold emit, bind, log_, modify, try_except, ret.
  destruct (broadcast env topic record _) as [[[]|e] w'];
    [| destruct (is_NameError_or_AttributeError e) ]; reflexivity.
Qed.

Lemma core_noted (topic record : pyval) (w : Worker.t) :
  core (noted topic record w) =
  (Worker.procedure w, Worker.emitted w ++ [(topic, record)],
   Worker.recorder_queue w, events (Worker.monitor_queue w),
   Worker.shutdown_calls w, Worker.stop_calls w, Worker.should_stop_flag w).
Proof. reflexivity. Qed.

(** The state in which [emit] leaves the part that matters when its routing
    delivers nothing. *)
Lemma core_emit_entry (env : Env) (topic record : pyval) (w : Worker.t) :
  core (snd (broadcast env topic record
               (noted topic record (logged DEBUG "Emitting message" w)))) =
  core (noted topic record w).
Proof.
  rewrite quiet_broadcast, !core_noted.
  pose proof (core_logged DEBUG "Emitting message" w) as H.
  unfold core in H. inversion H. reflexivity.
Qed.

(** A topic that takes the [elif] branch is a [str], which has no [decode]:
    [emit] raises, after the call was noted, and delivers nothing. *)
Lemma emit_monitor_topic_raises (env : Env) (topic record : pyval) (w : Worker.t) :
  py_eq_str topic "results" = false ->
  py_eq_str topic "status" || py_eq_str topic "progress" = true ->
  exists e w', emit env topic record w = (Raises e, w') /\
               core w' = core (noted topic record w).
Proof.
  intros Hr Hm. rewrite emit_eq.
  pose proof (core_emit_entry env topic record w) as Hc.
  destruct (broadcast env topic record _) as [[[]|e] w1]; simpl in Hc.
  2: destruct (is_NameError_or_AttributeError e);
       [| exists e, w1; split; [ reflexivity | exact Hc ] ].
  all: unfold route; rewrite Hr, Hm;
    destruct topic; try discriminate; simpl;
    exists AttributeError, w1; split; [ reflexivity | exact Hc ].
Qed.

(** [emit('results', r)] hands [r] to the Recorder once [run] has started
    it, provided the broadcast raises nothing beyond the two swallowed
    kinds. *)
Lemma emit_results_forwards (env : Env) (record : pyval) (w : Worker.t) :
  Worker.recorder w = true ->
  (forall e w', broadcast env (PyStr "results") record
                  (noted (PyStr "results") record
                     (logged DEBUG "Emitting message" w)) = (Raises e, w') ->
                is_NameError_or_AttributeError e = true) ->
  exists w', emit env (PyStr "results") record w = (Returns tt, w') /\
             Worker.recorder_queue w' = Worker.recorder_queue w ++ [RRecord record].
Proof.
  intros Hrec Hb. rewrite emit_eq.
  pose proof (core_emit_entry env (PyStr "results") record w) as Hc.
  assert (Hr : forall w1 : Worker.t,
             Worker.recorder w1 = true ->
             core w1 = core (noted (PyStr "results") record w) ->
             exists w', route (PyStr "results") record w1 = (Returns tt, w') /\
               Worker.recorder_queue w' = Worker.recorder_queue w ++ [RRecord record]).
  { intros w1 H1 H2. unfold route, recorder_handle; simpl. rewrite H1.
    eexists; split; [ reflexivity |]. simpl.
    unfold core in H2; simpl in H2. inversion H2. congruence. }
  assert (Hkeep : forall o w1,
             broadcast env (PyStr "results") record
               (noted (PyStr "results") record
                  (logged DEBUG "Emitting message" w)) = (o, w1) ->
             Worker.recorder w1 = true).
  { intros o w1. unfold broadcast, bind, cloudpickle_dumps, send_multipart.
    assert (Worker.recorder (noted (PyStr "results") record
              (logged DEBUG "Emitting message" w)) = true) as Hn.
    { unfold noted, logged; simpl.
      destruct (Worker.root_logging w && _); simpl; exact Hrec. }
    destruct (tcp env); [| intro E; inversion E; subst; exact Hn ].
    destruct (dumps_error env _ _ _); [ intro E; inversion E; subst; exact Hn |].
    destruct (Worker.publisher _); [| intro E; inversion E; subst; exact Hn ].
    simpl. destruct (send_error env _ _ _);
      intro E; inversion E; subst; exact Hn. }
  destruct (broadcast env _ record _) as [[[]|e] w1] eqn:E; simpl in Hc.
  - apply Hr; [ eapply Hkeep; reflexivity | exact Hc ].
  - rewrite (Hb e w1 eq_refl). apply Hr; [ eapply Hkeep; reflexivity | exact Hc ].
Qed.

(** C2 (the code departs from the claim).  [emit('results', r)] does hand
    [r] to the Recorder, but for the topics ['status'] and ['progress']
    nothing reaches the monitor channel: for every record and every state,
    [emit] ends with an exception (the [AttributeError] of [topic.decode()]
    on a [str], unless the broadcast already raised) and the monitor channel
    holds the same pairs and markers as before. *)
Theorem emit_status_progress_never_delivered (env : Env) (record : pyval)
    (w : Worker.t) :
  (exists e w', emit env (PyStr "status") record w = (Raises e, w') /\
      events (Worker.monitor_queue w') = events (Worker.monitor_queue w)) /\
  (exists e w', emit env (PyStr "progress") record w = (Raises e, w') /\
      events (Worker.monitor_queue w') = events (Worker.monitor_queue w)).
Proof.
  split.
  - destruct (emit_monitor_topic_raises env (PyStr "status") record w)
      as (e & w' & E & Hc); [ reflexivity | reflexivity |].
    exists e, w'. split; [ exact E |]. unfold core in Hc. inversion Hc. reflexivity.
  - destruct (emit_monitor_topic_raises env (PyStr "progress") record w)
      as (e & w' & E & Hc); [ reflexivity | reflexivity |].
    exists e, w'. split; [ exact E |]. unfold core in Hc. inversion Hc. reflexivity.
Qed.

(** With no Publisher the exception is the [AttributeError] of the missing
    [decode], and the monitor channel is left as it was. *)
Example emit_status_AttributeError :
  let w := running INFO false (worker_of idle_procedure) in
  exists w', emit quiet_env (PyStr "status") (PyStatus RUNNING) w
             = (Raises AttributeError, w') /\
             Worker.monitor_queue w' = Worker.monitor_queue w.
Proof. eexists. split; reflexivity. Qed.

(** C3 (the claim as worded fails).  A Publisher whose [send_multipart]
    raises [ZMQError]: the exception is not one of the two kinds that the
    handler names, so it leaves [emit('results', 1)] and the record never
    reaches the Recorder; [emit] does not carry on with its routing. *)
Lemma transport_failure_leaves_emit :
  ~ swallows_broadcast_failure lossy_env (PyStr "results") (PyInt 1)
      (publishing (running INFO false (worker_of idle_procedure))).
Proof.
  intro H. specialize (H ZMQError _ eq_refl).
  vm_compute in H. discriminate H.
Qed.

(** C3 (as amended).  When the broadcast inside [emit] raises [e], the
    handler looks at the class of [e] only: a [NameError] or an
    [AttributeError] is dropped and [emit] carries on with its routing from
    the state the broadcast left, exactly as after a broadcast that
    succeeded; any other exception leaves [emit] at once, before the
    routing. *)
Theorem emit_swallows_NameError_AttributeError (env : Env)
    (topic record : pyval) (w : Worker.t) (e : exn) (w' : Worker.t) :
  broadcast env topic record
    (noted topic record (logged DEBUG "Emitting message" w)) = (Raises e, w') ->
  emit env topic record w =
  if is_NameError_or_AttributeError e then route topic record w'
  else (Raises e, w').
Proof. intro H. rewrite emit_eq, H. reflexivity. Qed.

Lemma emit_swallows_NameError_AttributeError_witness :
  let w := running INFO false (worker_of idle_procedure) in
  exists w',
    broadcast quiet_env (PyStr "results") (PyInt 1)
      (noted (PyStr "results") (PyInt 1) (logged DEBUG "Emitting message" w))
    = (Raises AttributeError, w') /\
    emit quiet_env (PyStr "results") (PyInt 1) w
    = route (PyStr "results") (PyInt 1) w' /\
    Worker.recorder_queue (snd (route (PyStr "results") (PyInt 1) w'))
    = [RRecord (PyInt 1)].
Proof.
  eexists. split; [ reflexivity |]. split; [| reflexivity ].
  exact (emit_swallows_NameError_AttributeError quiet_env (PyStr "results")
           (PyInt 1) (running INFO false (worker_of idle_procedure))
           AttributeError _ eq_refl).
Defined.

(** ** [run] *)

Lemma bind_returns {A B} (c : M A) (k : A -> M B) (w w' : Worker.t) (a : A) :
  c w = (Returns a, w') -> bind c k w = k a w'.
Proof. intro H. unfold bind. now rewrite H. Qed.

Lemma bind_raises {A B} (c : M A) (k : A -> M B) (w w' : Worker.t) (e : exn) :
  c w = (Raises e, w') -> bind c k w = (Raises e, w').
Proof. intro H. unfold bind. now rewrite H. Qed.

Lemma update_status_eq (env : Env) (status : Status) (w : Worker.t) :
  update_status env status w =
  emit env (PyStr "status") (PyStatus status) (assigned status w).
Proof. reflexivity. Qed.

(** [update_status] performs the assignment and then never returns: the
    [emit] of the status event raises. *)
Lemma update_status_raises (env : Env) (status : Status) (w : Worker.t) :
  exists e w', update_status env status w = (Raises e, w') /\
    core w' = core (noted (PyStr "status") (PyStatus status) (assigned status w)).
Proof.
  rewrite update_status_eq.
  apply emit_monitor_topic_raises; reflexivity.
Qed.

(** [run] ends at [update_status(RUNNING)] at the latest, before its [try]
    statement: either the set-up raised and nothing that matters changed, or
    the status was assigned [RUNNING] and the [emit] of the status event
    raised. *)
Lemma run_stops_before_try (env : Env) (w : Worker.t) :
  exists e w', run env w = (Raises e, w') /\
    (core w' = core w \/
     core w' = core (noted (PyStr "status") (PyStatus RUNNING) (assigned RUNNING w))).
Proof.
  pose proof (quiet_run_setup env w) as Hs. unfold run.
  destruct (run_setup env w) as [[[]|e] w1] eqn:E; simpl in Hs.
  - rewrite (bind_returns _ _ _ _ _ E).
    destruct (update_status_raises env RUNNING w1) as (e & w2 & E2 & Hc).
    rewrite (bind_raises _ _ _ _ _ E2).
    exists e, w2. split; [ reflexivity | right ].
    rewrite Hc. unfold core in *; simpl. inversion Hs. congruence.
  - rewrite (bind_raises _ _ _ _ _ E).
    exists e, w1. split; [ reflexivity | left; exact Hs ].
Qed.

(** C1 (the code departs from the claim).  No run reaches a terminal
    status: [run] always ends with an exception, having assigned to the
    status field at most the value [RUNNING]. *)
Theorem run_never_reaches_terminal_status (env : Env) (w : Worker.t) :
  exists e w', run env w = (Raises e, w') /\
    (Worker.status_writes w' = Worker.status_writes w /\
     Worker.status w' = Worker.status w
     \/
     Worker.status_writes w' = Worker.status_writes w ++ [RUNNING] /\
     Worker.status w' = RUNNING) /\
    (terminal (Worker.status w) = false -> terminal (Worker.status w') = false).
Proof.
  destruct (run_stops_before_try env w) as (e & w' & E & [Hc | Hc]);
    exists e, w'; (split; [ exact E |]);
    unfold core in Hc; simpl in Hc; inversion Hc as [[Hp He Hq Hm Hs Ht Hf]];
    unfold Worker.status_writes, Worker.status; rewrite Hp.
  - split; [ left; split; reflexivity | trivial ].
  - split; [ right; split; reflexivity | reflexivity ].
Qed.

(** The run of a freshly constructed Worker over a procedure whose hooks
    all return: the status goes from [QUEUED] to [RUNNING] and stays. *)
Example run_idle_procedure :
  let r := run quiet_env (worker_of idle_procedure) in
  fst r = Raises AttributeError /\
  Worker.status_writes (snd r) = [QUEUED; RUNNING] /\
  Worker.calls (snd r) = [CheckParameters] /\
  Worker.recorder_queue (snd r) = [] /\
  events (Worker.monitor_queue (snd r)) = [].
Proof. vm_compute. repeat split. Qed.

(** C4 (the code departs from the claim).  [run] never gets to the [try]
    statement whose [finally] clause calls [shutdown]: it ends with an
    exception, [shutdown] has not been invoked, no hook of the procedure has
    been called (so no teardown), the results channel has not received the
    Sentinel and the monitor channel has received neither a pair nor the
    closing marker. *)
Theorem run_never_invokes_shutdown (env : Env) (w : Worker.t) :
  exists e w', run env w = (Raises e, w') /\
    Worker.shutdown_calls w' = Worker.shutdown_calls w /\
    Worker.calls w' = Worker.calls w /\
    Worker.recorder_queue w' = Worker.recorder_queue w /\
    events (Worker.monitor_queue w') = events (Worker.monitor_queue w).
Proof.
  destruct (run_stops_before_try env w) as (e & w' & E & [Hc | Hc]);
    exists e, w'; (split; [ exact E |]);
    unfold core in Hc; simpl in Hc; inversion Hc as [[Hp He Hq Hm Hs Ht Hf]];
    unfold Worker.calls; rewrite Hp; repeat split; reflexivity.
Qed.

(** [handle_error] never returns: if the [emit] of the error event does not
    raise, [update_status(FAILED)] does. *)
Lemma handle_error_raises (env : Env) (e : exn) (w : Worker.t) :
  exists e' w', handle_error env e w = (Raises e', w').
Proof.
  unfold handle_error.
  rewrite (bind_returns _ _ w (logged ERROR "Worker caught an error" w) tt eq_refl).
  destruct (emit env (PyStr "error") (PyStr (format_exc e))
              (logged ERROR "Worker caught an error" w)) as [[[]|e1] w1] eqn:E.
  - rewrite (bind_returns _ _ _ _ _ E).
    destruct (update_status_raises env FAILED w1) as (e2 & w2 & E2 & _).
    eauto.
  - rewrite (bind_raises _ _ _ _ _ E). eauto.
Qed.

(** C6 (the code departs from the claim).  Whatever the main-execution hook
    would do, [run] ends with an exception before calling it: no hook is
    invoked, the only event the Worker may have emitted is the status event
    for [RUNNING] (no ['error'] event), and the status is not set to
    [FAILED]. *)
Theorem run_never_handles_failure (env : Env) (w : Worker.t) :
  exists e w', run env w = (Raises e, w') /\
    Worker.calls w' = Worker.calls w /\
    (Worker.emitted w' = Worker.emitted w \/
     Worker.emitted w' = Worker.emitted w ++ [(PyStr "status", PyStatus RUNNING)]) /\
    (Worker.status w' = Worker.status w \/ Worker.status w' = RUNNING).
Proof.
  destruct (run_stops_before_try env w) as (e & w' & E & [Hc | Hc]);
    exists e, w'; (split; [ exact E |]);
    unfold core in Hc; simpl in Hc; inversion Hc as [[Hp He Hq Hm Hs Ht Hf]];
    unfold Worker.calls, Worker.status; rewrite Hp; auto.
Qed.

(** The run of a Worker over a procedure whose main-execution hook raises
    [ValueError]. *)
Example run_failing_procedure :
  let r := run quiet_env (worker_of failing_procedure) in
  fst r = Raises AttributeError /\
  Worker.status (snd r) = RUNNING /\
  Worker.calls (snd r) = [CheckParameters] /\
  Worker.emitted (snd r) = [(PyStr "status", PyStatus RUNNING)] /\
  Worker.shutdown_calls (snd r) = 0%nat.
Proof. vm_compute. repeat split. Qed.

(** Entered directly with the status [RUNNING], the [try] statement of
    [run] does handle the failure of the hook (one ['error'] event, status
    [FAILED], shutdown carried out, [stop] called), but the exception of
    [update_status(FAILED)] leaves [run]. *)
Example run_supervise_failing_procedure :
  let r := run_supervise quiet_env
             (running INFO false (worker_of failing_procedure)) in
  fst r = Raises AttributeError /\
  Worker.status (snd r) = FAILED /\
  Worker.emitted (snd r) =
    [(PyStr "error", PyStr (format_exc ValueError));
     (PyStr "status", PyStatus FAILED)] /\
  Worker.recorder_queue (snd r) = [RSentinel] /\
  events (Worker.monitor_queue (snd r)) = [MNone] /\
  Worker.stop_calls (snd r) = 1%nat.
Proof. vm_compute. repeat split. Qed.

(** ** [shutdown] *)



(** Without a stop request the same [shutdown] assigns [FINISHED]; the
    progress event is not reached, the status event having raised. *)
Example shutdown_finishes_without_stop :
  let r := shutdown quiet_env (running INFO false (worker_of idle_procedure)) in
  fst r = Raises AttributeError /\
  Worker.status (snd r) = FINISHED /\
  Worker.emitted (snd r) = [(PyStr "status", PyStatus FINISHED)] /\
  Worker.recorder_queue (snd r) = [].
Proof. vm_compute. repeat split. Qed.

(** ** Construction *)

(** C7.  An argument that is not a [Results] makes the constructor raise
    [ValueError] at once: the outcome carries no Worker, so there is nothing
    that could be started. *)
Theorem init_rejects_non_Results (v : pyval) (log_queue : option (list LogRecord))
    (log_level : Z) (port : option Z) :
  init (NotResults v) log_queue log_level port = Rejected ValueError.
Proof. reflexivity. Qed.

(** C8.  The constructor calls [check_parameters] exactly once.  If the hook
    raises [e], the constructor ends with [e] and no Worker; the status field
    of the procedure has not been assigned.  If it returns, the Worker is
    built and [QUEUED] is the one assignment made, after the call. *)
Theorem init_validates_before_QUEUED (procedure : Procedure.t)
    (log_queue : option (list LogRecord)) (log_level : Z) (port : option Z) :
  match Procedure.check_parameters procedure with
  | Some e =>
      exists p',
        init (IsResults procedure) log_queue log_level port = Invalid e p' /\
        Procedure.calls p' = Procedure.calls procedure ++ [CheckParameters] /\
        Procedure.status p' = Procedure.status procedure /\
        Procedure.status_writes p' = Procedure.status_writes procedure
  | None =>
      exists w,
        init (IsResults procedure) log_queue log_level port = Constructed w /\
        Worker.calls w = Procedure.calls procedure ++ [CheckParameters] /\
        Worker.status w = QUEUED /\
        Worker.status_writes w = Procedure.status_writes procedure ++ [QUEUED] /\
        Worker.shutdown_calls w = 0%nat /\ Worker.recorder w = false
  end.
Proof.
  unfold init.
  destruct (Procedure.check_parameters procedure) as [e|];
    eexists; repeat split; reflexivity.
Qed.

Example init_unset_procedure :
  init (IsResults unset_procedure) None INFO None
  = Invalid NameError (Procedure.note_call CheckParameters unset_procedure).
Proof. reflexivity. Qed.

Example init_idle_procedure :
  init (IsResults idle_procedure) None INFO None
  = Constructed (worker_of idle_procedure).
Proof. reflexivity. Qed.

(** ** [join] *)

(** C9 (the claim as worded fails).  When the retry is interrupted as well,
    its [KeyboardInterrupt] reaches the caller: the retry stands inside the
    handler, where nothing catches it. *)
Lemma interrupted_retry_leaves_join :
  ~ join_survives_interruption insistent_env 5 (worker_of idle_procedure).
Proof.
  intro H. destruct (H KeyboardInterrupt eq_refl eq_refl) as (w' & E & _).
  vm_compute in E. discriminate E.
Qed.

(** C9 (as amended).  When the wait of [join(timeout)] is interrupted by
    [KeyboardInterrupt] or [SystemExit], the Worker invokes [stop] exactly
    once, which sets the flag, then calls the parent's [join] with timeout 0;
    [join] ends the way this retry ends: it returns to the caller when the
    retry returns, and the interruption itself is never passed on. *)
Theorem join_interrupted_stops_once (env : Env) (timeout : Z) (w : Worker.t)
    (e : exn) :
  process_join env (List.length (Worker.join_calls w)) timeout = Some e ->
  is_cancellation e = true ->
  exists o w',
    join env timeout w = (o, w') /\
    Worker.stop_calls w' = S (Worker.stop_calls w) /\
    Worker.should_stop_flag w' = true /\
    Worker.join_calls w' = Worker.join_calls w ++ [timeout; 0] /\
    outcome o = process_join env (S (List.length (Worker.join_calls w))) 0.
Proof.
  intros Hj Hc. unfold join, try_except, super_join at 1. rewrite Hj, Hc.
  unfold bind, log_, modify, stop, super_join.
  set (w1 := logged WARNING _ _).
  assert (Hl : Worker.join_calls w1 = Worker.join_calls w ++ [timeout]).
  { subst w1. unfold logged. simpl.
    destruct (Worker.root_logging w && _); reflexivity. }
  assert (Hs : Worker.stop_calls w1 = Worker.stop_calls w).
  { subst w1. unfold logged. simpl.
    destruct (Worker.root_logging w && _); reflexivity. }
  simpl. rewrite Hl, Hs, length_app, Nat.add_comm. simpl.
  rewrite <- app_assoc. simpl.
  destruct (process_join env (S (List.length (Worker.join_calls w))) 0);
    eexists; eexists; repeat split; reflexivity.
Qed.

Lemma join_interrupted_stops_once_witness :
  exists o w',
    join interrupted_env 5 (worker_of idle_procedure) = (o, w') /\
    Worker.stop_calls w' = 1%nat /\
    Worker.should_stop_flag w' = true /\
    Worker.join_calls w' = [5; 0] /\
    outcome o = None.
Proof.
  exact (join_interrupted_stops_once interrupted_env 5
           (worker_of idle_procedure) KeyboardInterrupt eq_refl eq_refl).
Defined.

(** ** The topics that [emit] does not route *)

(** The broadcast changes nothing but the history of what was published. *)
Lemma broadcast_state (env : Env) (topic record : pyval) (w : Worker.t) :
  snd (broadcast env topic record w) = w \/
  snd (broadcast env topic record w)
  = Worker.set_published (Worker.published w ++ [(topic, record)]) w.
Proof.
  unfold broadcast, bind, cloudpickle_dumps, send_multipart.
  destruct (tcp env); [| left; reflexivity ].
  destruct (dumps_error env _ topic record); [ left; reflexivity |].
  destruct (Worker.publisher w); [| left; reflexivity ].
  simpl. destruct (send_error env _ topic record);
    [ left | right ]; reflexivity.
Qed.

Lemma recorder_queue_logged (level : Z) (message : string) (w : Worker.t) :
  Worker.recorder_queue (logged level message w) = Worker.recorder_queue w.
Proof.
  unfold logged.
  destruct (Worker.root_logging w && (Worker.log_level w <=? level)); reflexivity.
Qed.

Lemma published_logged (level : Z) (message : string) (w : Worker.t) :
  Worker.published (logged level message w) = Worker.published w.
Proof.
  unfold logged.
  destruct (Worker.root_logging w && (Worker.log_level w <=? level)); reflexivity.
Qed.

Lemma monitor_queue_debug (w : Worker.t) :
  Worker.monitor_queue (logged DEBUG "Emitting message" w)
  = Worker.monitor_queue w ++ debug_record w.
Proof.
  unfold logged, debug_record.
  destruct (Worker.root_logging w && (Worker.log_level w <=? DEBUG)); simpl.
  - reflexivity.
  - now rewrite app_nil_r.
Qed.

(** C10 (the claim as worded fails).  In a run whose log level is [DEBUG],
    the first line of [emit] logs a record, and the handler that [run]
    installed on the monitor queue puts it there: [emit('error', ...)] does
    not leave the monitor channel unchanged. *)
Lemma debug_record_reaches_monitor_channel :
  ~ leaves_channels_unchanged quiet_env (PyStr "error") (PyStr "failure")
      (running DEBUG false (worker_of idle_procedure)).
Proof.
  intros [_ H]. vm_compute in H. discriminate H.
Qed.

(** C10 (as amended).  For a topic other than ['results'], ['status'] and
    ['progress'], [emit] never puts the event on a queue: the results channel
    is unchanged, and the monitor channel is unchanged but for the log
    record of the debug message of [emit] itself, which is there only when
    the handlers of [run] are installed and the level of the Worker admits
    [DEBUG].  The event can only leave through the Publisher. *)
Theorem emit_other_topics_frame (env : Env) (topic record : pyval)
    (w : Worker.t) :
  py_eq_str topic "results" = false ->
  py_eq_str topic "status" = false ->
  py_eq_str topic "progress" = false ->
  Worker.recorder_queue (snd (emit env topic record w)) = Worker.recorder_queue w /\
  Worker.monitor_queue (snd (emit env topic record w))
  = Worker.monitor_queue w ++ debug_record w /\
  events (Worker.monitor_queue (snd (emit env topic record w)))
  = events (Worker.monitor_queue w) /\
  (Worker.published (snd (emit env topic record w)) = Worker.published w \/
   Worker.published (snd (emit env topic record w))
   = Worker.published w ++ [(topic, record)]).
Proof.
  intros Hr Hs Hp.
  assert (E : snd (emit env topic record w)
              = snd (broadcast env topic record
                       (noted topic record (logged DEBUG "Emitting message" w)))).
  { rewrite emit_eq. unfold route. rewrite Hr, Hs, Hp. simpl.
    destruct (broadcast env topic record _) as [[[]|e] w1];
      [| destruct (is_NameError_or_AttributeError e) ]; reflexivity. }
  rewrite E.
  assert (Hev : events (Worker.monitor_queue w ++ debug_record w)
                = events (Worker.monitor_queue w)).
  { unfold debug_record.
    destruct (Worker.root_logging w && _);
      [ apply events_log | now rewrite app_nil_r ]. }
  destruct (broadcast_state env topic record
              (noted topic record (logged DEBUG "Emitting message" w)))
    as [H | H]; rewrite H; simpl;
    rewrite recorder_queue_logged, monitor_queue_debug, published_logged, Hev;
    auto.
Qed.

Lemma emit_other_topics_frame_witness :
  let w := running INFO false (worker_of idle_procedure) in
  let w' := snd (emit quiet_env (PyStr "error") (PyStr "failure") w) in
  Worker.recorder_queue w' = Worker.recorder_queue w /\
  Worker.monitor_queue w' = Worker.monitor_queue w ++ debug_record w /\
  events (Worker.monitor_queue w') = events (Worker.monitor_queue w) /\
  (Worker.published w' = Worker.published w \/
   Worker.published w' = Worker.published w ++ [(PyStr "error", PyStr "failure")]).
Proof.
  exact (emit_other_topics_frame quiet_env (PyStr "error") (PyStr "failure")
           (running INFO false (worker_of idle_procedure))
           eq_refl eq_refl eq_refl).
Defined.

(** At the default level [INFO] the debug record is filtered out and both
    channels are exactly as before. *)
Example emit_error_at_INFO :
  leaves_channels_unchanged quiet_env (PyStr "error") (PyStr "failure")
    (running INFO false (worker_of idle_procedure)).
Proof. split; reflexivity. Qed.

(** ** A measuring routine

    Entered directly with the status [RUNNING], the [try] statement of
    [run] lets the routine report its result to the Recorder; [shutdown]
    then assigns [FINISHED] and the status event raises, before the Sentinel
    and the closing marker. *)
Example run_supervise_measuring_procedure :
  let r := run_supervise quiet_env
             (running INFO false (worker_of measuring_procedure)) in
  fst r = Raises AttributeError /\
  Worker.calls (snd r) = [CheckParameters; Startup; Execute; Teardown] /\
  Worker.status_writes (snd r) = [QUEUED; RUNNING; FINISHED] /\
  Worker.recorder_queue (snd r) = [RRecord (PyInt 1)] /\
  events (Worker.monitor_queue (snd r)) = [] /\
  Worker.shutdown_calls (snd r) = 1%nat.
Proof. vm_compute. repeat split. Qed.

(** * Further properties of the Worker *)

(** ** Composing observations *)

Section Respects.

Context {X : Type} (R : X -> X -> Prop) (f : Worker.t -> X).
Hypothesis R_refl : forall x, R x x.
Hypothesis R_trans : forall x y z, R x y -> R y z -> R x z.

Lemma respects_ret {A} (a : A) : respects R f (ret a).
Proof. intro w. apply R_refl. Qed.

Lemma respects_raise {A} (e : exn) : respects R f (@raise A e).
Proof. intro w. apply R_refl. Qed.

Lemma respects_get {A} (g : Worker.t -> A) : respects R f (get g).
Proof. intro w. apply R_refl. Qed.

Lemma respects_modify (g : Worker.t -> Worker.t) :
  (forall w, R (f w) (f (g w))) -> respects R f (modify g).
Proof. intros H w. apply H. Qed.

Lemma respects_bind {A B} (c : M A) (k : A -> M B) :
  respects R f c -> (forall a, respects R f (k a)) -> respects R f (bind c k).
Proof.
  intros Hc Hk w. unfold bind. specialize (Hc w).
  destruct (c w) as [[a|e] w1]; simpl in *; [| exact Hc ].
  eapply R_trans; [ exact Hc | apply Hk ].
Qed.

Lemma respects_try_except {A} (c : M A) (h : exn -> option (M A)) :
  respects R f c -> (forall e k, h e = Some k -> respects R f k) ->
  respects R f (try_except c h).
Proof.
  intros Hc Hh w. unfold try_except. specialize (Hc w).
  destruct (c w) as [[a|e] w1]; simpl in *; [ exact Hc |].
  destruct (h e) as [k|] eqn:E; simpl; [| exact Hc ].
  eapply R_trans; [ exact Hc | apply (Hh _ _ E) ].
Qed.

Lemma respects_try_finally {A} (c : M A) (fin : M unit) :
  respects R f c -> respects R f fin -> respects R f (try_finally c fin).
Proof.
  intros Hc Hf w. unfold try_finally. specialize (Hc w).
  destruct (c w) as [o w1]; simpl in *. specialize (Hf w1).
  destruct (fin w1) as [[[]|e] w2]; simpl in *;
    eapply R_trans; eauto.
Qed.

Hypothesis f_passive : passive f.

Lemma respects_log (level : Z) (message : string) :
  respects R f (log_ level message).
Proof.
  destruct f_passive as (Hm & Hl & _).
  apply respects_modify. intro w. unfold logged.
  destruct (Worker.root_logging w && (Worker.log_level w <=? level));
    [ rewrite Hl, Hm |]; apply R_refl.
Qed.

Lemma respects_broadcast (env : Env) (topic record : pyval) :
  respects R f (broadcast env topic record).
Proof.
  destruct f_passive as (_ & _ & _ & _ & Hp).
  intro w. destruct (broadcast_state env topic record w) as [H | H];
    rewrite H; [| rewrite Hp ]; apply R_refl.
Qed.

Lemma respects_route (topic record : pyval) :
  respects R f (route topic record).
Proof.
  destruct f_passive as (Hm & _ & Hq & _ & _).
  intro w. unfold route, recorder_handle, monitor_queue_put, modify.
  destruct (py_eq_str topic "results").
  - destruct (Worker.recorder w); simpl; [ rewrite Hq |]; apply R_refl.
  - destruct (py_eq_str topic "status" || py_eq_str topic "progress");
      [| apply R_refl ].
    destruct (py_decode topic); simpl; [| rewrite Hm ]; apply R_refl.
Qed.

(** [emit] respects every passive observation. *)
Lemma respects_emit (env : Env) (topic record : pyval) :
  respects R f (emit env topic record).
Proof.
  destruct f_passive as (_ & _ & _ & He & _).
  unfold emit.
  apply respects_bind; [ apply respects_log | intros _ ].
  apply respects_bind;
    [ apply respects_modify; intro w; unfold noted; rewrite He; apply R_refl
    | intros _ ].
  apply respects_bind; [| intros _; apply respects_route ].
  apply respects_try_except; [ apply respects_broadcast |].
  intros e k. destruct (is_NameError_or_AttributeError e);
    intro E; inversion E. apply respects_ret.
Qed.

Hypothesis f_stop : respects R f stop.

(** So does a hook, which acts through [emit], [should_stop] and the stop
    requests that reach it. *)
Lemma respects_run_hook (env : Env) (h : hook) : respects R f (run_hook env h).
Proof.
  induction h as [| e | topic record k IH | k IH | k IH ]; intro w; simpl.
  - apply R_refl.
  - apply R_refl.
  - pose proof (respects_emit env topic record w) as He.
    destruct (emit env topic record w) as [o w1]; simpl in He.
    eapply R_trans; [ exact He | apply IH ].
  - apply IH.
  - eapply R_trans; [ exact (f_stop w) | apply IH ].
Qed.

End Respects.

(** ** [emit] again *)

Lemma passive_control_state : passive control_state.
Proof. repeat split. Qed.

Lemma passive_should_stop_flag : passive Worker.should_stop_flag.
Proof. repeat split. Qed.

Lemma passive_stop_calls : passive Worker.stop_calls.
Proof. repeat split. Qed.

Lemma passive_publisher : passive Worker.publisher.
Proof. repeat split. Qed.

Lemma passive_recorder : passive Worker.recorder.
Proof. repeat split. Qed.

Lemma eq_trans' {X : Type} (x y z : X) : x = y -> y = z -> x = z.
Proof. congruence. Qed.

Lemma emitted_logged (level : Z) (message : string) (w : Worker.t) :
  Worker.emitted (logged level message w) = Worker.emitted w.
Proof.
  unfold logged.
  destruct (Worker.root_logging w && (Worker.log_level w <=? level)); reflexivity.
Qed.

Lemma emitted_route (topic record : pyval) (w : Worker.t) :
  Worker.emitted (snd (route topic record w)) = Worker.emitted w.
Proof.
  unfold route, recorder_handle, monitor_queue_put, modify.
  destruct (py_eq_str topic "results").
  - destruct (Worker.recorder w); reflexivity.
  - destruct (py_eq_str topic "status" || py_eq_str topic "progress");
      [| reflexivity ].
    destruct (py_decode topic); reflexivity.
Qed.

Lemma published_route (topic record : pyval) (w : Worker.t) :
  Worker.published (snd (route topic record w)) = Worker.published w.
Proof.
  unfold route, recorder_handle, monitor_queue_put, modify.
  destruct (py_eq_str topic "results").
  - destruct (Worker.recorder w); reflexivity.
  - destruct (py_eq_str topic "status" || py_eq_str topic "progress");
      [| reflexivity ].
    destruct (py_decode topic); reflexivity.
Qed.

Lemma emitted_emit (env : Env) (topic record : pyval) (w : Worker.t) :
  Worker.emitted (snd (emit env topic record w))
  = Worker.emitted w ++ [(topic, record)].
Proof.
  rewrite emit_eq.
  assert (H : Worker.emitted
                (snd (broadcast env topic record
                        (noted topic record (logged DEBUG "Emitting message" w))))
              = Worker.emitted w ++ [(topic, record)]).
  { destruct (broadcast_state env topic record
                (noted topic record (logged DEBUG "Emitting message" w)))
      as [E | E]; rewrite E; simpl; now rewrite emitted_logged. }
  destruct (broadcast env topic record _) as [[[]|e] w1]; simpl in H;
    [| destruct (is_NameError_or_AttributeError e) ];
    try rewrite emitted_route; exact H.
Qed.

(** X1.  Whatever the topic and however it ends, [emit] notes the call
    exactly once and leaves the control state alone: the procedure with its
    status, the Recorder, the Publisher, the logging set-up, the stop flag
    and the counts of [stop], [shutdown] and [join] calls. *)
Theorem emit_keeps_control_state (env : Env) (topic record : pyval)
    (w : Worker.t) :
  Worker.emitted (snd (emit env topic record w))
  = Worker.emitted w ++ [(topic, record)] /\
  control_state (snd (emit env topic record w)) = control_state w /\
  Worker.should_stop_flag (snd (emit env topic record w))
  = Worker.should_stop_flag w /\
  Worker.stop_calls (snd (emit env topic record w)) = Worker.stop_calls w.
Proof.
  split; [ apply emitted_emit |].
  repeat split; symmetry.
  - apply (respects_emit eq control_state (@eq_refl _) eq_trans'
             passive_control_state).
  - apply (respects_emit eq Worker.should_stop_flag (@eq_refl _) eq_trans'
             passive_should_stop_flag).
  - apply (respects_emit eq Worker.stop_calls (@eq_refl _) eq_trans'
             passive_stop_calls).
Qed.

(** In a tolerant environment the outcome of [emit] is that of its
    routing. *)
Lemma emit_tolerant (env : Env) (topic record : pyval) (w : Worker.t) :
  tolerant env ->
  emit env topic record w =
  route topic record
    (snd (broadcast env topic record
            (noted topic record (logged DEBUG "Emitting message" w)))).
Proof.
  intros [Hd Hs]. rewrite emit_eq.
  destruct (broadcast env topic record _) as [[[]|e] w1] eqn:E;
    [ reflexivity |]. simpl.
  assert (Hna : is_NameError_or_AttributeError e = true).
  { revert E. unfold broadcast, bind, cloudpickle_dumps, send_multipart.
    destruct (tcp env); [| intro E; inversion E; reflexivity ].
    destruct (dumps_error env _ topic record) as [e1|] eqn:E1;
      [ intro E; inversion E; subst; eapply Hd; exact E1 |].
    destruct (Worker.publisher _); [| intro E; inversion E; reflexivity ].
    simpl. destruct (send_error env _ topic record) as [e2|] eqn:E2;
      intro E; inversion E; subst. eapply Hs; exact E2. }
  now rewrite Hna.
Qed.



Lemma publisher_entry (topic record : pyval) (w : Worker.t) :
  Worker.publisher (noted topic record (logged DEBUG "Emitting message" w))
  = Worker.publisher w.
Proof.
  unfold noted, logged. destruct (Worker.root_logging w && _); reflexivity.
Qed.

(** X3.  Without a Publisher (no port, or a socket that could not be
    created) [emit] is its routing and nothing else, provided serialising
    the event raises nothing but the two dropped kinds: the missing
    Publisher is an [AttributeError] that the handler drops, and nothing is
    published. *)
Theorem emit_without_publisher (env : Env) (topic record : pyval)
    (w : Worker.t) :
  Worker.publisher w = None ->
  (forall n e, dumps_error env n topic record = Some e ->
               is_NameError_or_AttributeError e = true) ->
  emit env topic record w
  = route topic record (noted topic record (logged DEBUG "Emitting message" w)) /\
  Worker.published (snd (emit env topic record w)) = Worker.published w.
Proof.
  intros Hp Hd.
  assert (E : emit env topic record w
              = route topic record
                  (noted topic record (logged DEBUG "Emitting message" w))).
  { rewrite emit_eq.
    unfold broadcast, bind, cloudpickle_dumps, send_multipart.
    destruct (tcp env); [| reflexivity ].
    destruct (dumps_error env _ topic record) as [e|] eqn:E1.
    - now rewrite (Hd _ _ E1).
    - now rewrite publisher_entry, Hp. }
  split; [ exact E |].
  rewrite E, published_route. unfold noted. simpl. apply published_logged.
Qed.

Lemma emit_without_publisher_witness :
  let w := running INFO false (worker_of idle_procedure) in
  emit quiet_env (PyStr "results") (PyInt 7) w
  = route (PyStr "results") (PyInt 7)
      (noted (PyStr "results") (PyInt 7) (logged DEBUG "Emitting message" w)) /\
  Worker.published (snd (emit quiet_env (PyStr "results") (PyInt 7) w))
  = Worker.published w.
Proof.
  apply (emit_without_publisher quiet_env (PyStr "results") (PyInt 7)
           (running INFO false (worker_of idle_procedure)));
    [ reflexivity | intros n e H; discriminate H ].
Defined.

(** X4.  [emit] serialises the event before it looks at the Publisher.  When
    [cloudpickle] is there and [dumps] raises an exception that is neither a
    [NameError] nor an [AttributeError], [emit] raises it and routes
    nothing, Publisher or not: the record reaches neither queue. *)
Theorem emit_unpicklable_record (env : Env) (topic record : pyval)
    (w : Worker.t) (e : exn) :
  tcp env = true ->
  (forall n, dumps_error env n topic record = Some e) ->
  is_NameError_or_AttributeError e = false ->
  emit env topic record w
  = (Raises e, noted topic record (logged DEBUG "Emitting message" w)) /\
  Worker.recorder_queue (snd (emit env topic record w)) = Worker.recorder_queue w /\
  events (Worker.monitor_queue (snd (emit env topic record w)))
  = events (Worker.monitor_queue w).
Proof.
  intros Ht Hd Hna.
  assert (E : emit env topic record w
              = (Raises e, noted topic record (logged DEBUG "Emitting message" w))).
  { rewrite emit_eq. unfold broadcast, bind, cloudpickle_dumps.
    now rewrite Ht, Hd, Hna. }
  rewrite E. split; [ reflexivity |]. simpl.
  rewrite recorder_queue_logged. split; [ reflexivity |].
  pose proof (core_logged DEBUG "Emitting message" w) as Hc.
  unfold core in Hc. now inversion Hc.
Qed.

Lemma emit_unpicklable_record_witness :
  let w := running INFO false (worker_of idle_procedure) in
  emit unpicklable_env (PyStr "results") (PyObject 0) w
  = (Raises PicklingError,
     noted (PyStr "results") (PyObject 0) (logged DEBUG "Emitting message" w)) /\
  Worker.recorder_queue (snd (emit unpicklable_env (PyStr "results") (PyObject 0) w))
  = Worker.recorder_queue w /\
  events (Worker.monitor_queue
            (snd (emit unpicklable_env (PyStr "results") (PyObject 0) w)))
  = events (Worker.monitor_queue w).
Proof.
  apply (emit_unpicklable_record unpicklable_env (PyStr "results") (PyObject 0)
           (running INFO false (worker_of idle_procedure)) PicklingError);
    [ reflexivity | intro n; reflexivity | reflexivity ].
Defined.

Lemma recorder_entry (env : Env) (topic record : pyval) (w : Worker.t) :
  Worker.recorder
    (snd (broadcast env topic record
            (noted topic record (logged DEBUG "Emitting message" w))))
  = Worker.recorder w.
Proof.
  transitivity (Worker.recorder
                  (noted topic record (logged DEBUG "Emitting message" w))).
  - symmetry.
    apply (respects_broadcast eq Worker.recorder (@eq_refl _) passive_recorder).
  - unfold noted, logged. destruct (Worker.root_logging w && _); reflexivity.
Qed.

Lemma recorder_queue_entry (env : Env) (topic record : pyval) (w : Worker.t) :
  Worker.recorder_queue
    (snd (broadcast env topic record
            (noted topic record (logged DEBUG "Emitting message" w))))
  = Worker.recorder_queue w.
Proof.
  destruct (broadcast_state env topic record
              (noted topic record (logged DEBUG "Emitting message" w)))
    as [E | E]; rewrite E; simpl; apply recorder_queue_logged.
Qed.

(** X5.  Before [run] has started the Recorder, [self.recorder] is [None]:
    in a tolerant environment [emit('results', r)] raises [AttributeError]
    and the results channel stays as it is. *)
Theorem emit_results_without_recorder (env : Env) (record : pyval)
    (w : Worker.t) :
  tolerant env ->
  Worker.recorder w = false ->
  fst (emit env (PyStr "results") record w) = Raises AttributeError /\
  Worker.recorder_queue (snd (emit env (PyStr "results") record w))
  = Worker.recorder_queue w.
Proof.
  intros Ht Hr. rewrite (emit_tolerant _ _ _ _ Ht).
  unfold route, recorder_handle; simpl.
  rewrite recorder_entry, Hr. simpl.
  split; [ reflexivity | apply recorder_queue_entry ].
Qed.

Lemma tolerant_quiet_env : tolerant quiet_env.
Proof. split; intros n topic record e H; discriminate H. Qed.

Lemma emit_results_without_recorder_witness :
  let w := worker_of idle_procedure in
  fst (emit quiet_env (PyStr "results") (PyInt 7) w) = Raises AttributeError /\
  Worker.recorder_queue (snd (emit quiet_env (PyStr "results") (PyInt 7) w))
  = Worker.recorder_queue w.
Proof.
  apply (emit_results_without_recorder quiet_env (PyInt 7)
           (worker_of idle_procedure));
    [ split; intros n topic record e H; discriminate H | reflexivity ].
Defined.

(** In a tolerant environment and with the Recorder started, one result is
    delivered and the Recorder stays. *)
Lemma emit_results_tolerant (env : Env) (record : pyval) (w : Worker.t) :
  tolerant env ->
  Worker.recorder w = true ->
  exists w', emit env (PyStr "results") record w = (Returns tt, w') /\
             Worker.recorder w' = true /\
             Worker.recorder_queue w' = Worker.recorder_queue w ++ [RRecord record].
Proof.
  intros Ht Hr. rewrite (emit_tolerant _ _ _ _ Ht).
  unfold route, recorder_handle; simpl.
  rewrite recorder_entry, Hr. eexists. split; [ reflexivity |]. simpl.
  rewrite recorder_entry, recorder_queue_entry. auto.
Qed.

(** X6.  A hook that reports a list of results delivers them to the
    Recorder in the order of the calls, none lost and none added, and
    returns: the results channel grows by exactly these records. *)
Theorem results_reach_recorder_in_order (env : Env) (records : list pyval)
    (w : Worker.t) :
  tolerant env ->
  Worker.recorder w = true ->
  exists w',
    run_hook env (report_all records) w = (Returns tt, w') /\
    Worker.recorder_queue w' = Worker.recorder_queue w ++ map RRecord records.
Proof.
  intros Ht. revert w.
  induction records as [| r rest IH ]; intros w Hr.
  - exists w. split; [ reflexivity | now rewrite app_nil_r ].
  - destruct (emit_results_tolerant env r w Ht Hr) as (w1 & E & Hr1 & Hq).
    destruct (IH w1 Hr1) as (w2 & E2 & Hq2).
    exists w2. split.
    + simpl. rewrite E. simpl. exact E2.
    + rewrite Hq2, Hq, <- app_assoc. reflexivity.
Qed.

Lemma results_reach_recorder_in_order_witness :
  exists w',
    run_hook quiet_env (report_all [PyInt 1; PyInt 2; PyInt 3])
      (running INFO false (worker_of idle_procedure)) = (Returns tt, w') /\
    Worker.recorder_queue w'
    = [] ++ map RRecord [PyInt 1; PyInt 2; PyInt 3].
Proof.
  apply (results_reach_recorder_in_order quiet_env
           [PyInt 1; PyInt 2; PyInt 3]
           (running INFO false (worker_of idle_procedure)));
    [ split; intros n topic record e H; discriminate H | reflexivity ].
Defined.

(** ** Hooks and handlers *)

Lemma stop_keeps_control_state : respects eq control_state stop.
Proof. intro w. reflexivity. Qed.

Lemma run_hook_control_state (env : Env) (h : hook) (w : Worker.t) :
  control_state (snd (run_hook env h w)) = control_state w.
Proof.
  symmetry.
  apply (respects_run_hook eq control_state (@eq_refl _) eq_trans'
           passive_control_state stop_keeps_control_state).
Qed.

(** X7.  Through the two callbacks a hook cannot reach the control state:
    whatever it emits, however often it polls and whatever stop requests
    arrive, the procedure (status, history of assignments, hooks called),
    the Recorder, the Publisher and the logging set-up are as before. *)
Theorem hook_keeps_control_state (env : Env) (h : hook) (w : Worker.t) :
  control_state (snd (run_hook env h w)) = control_state w /\
  Worker.status (snd (run_hook env h w)) = Worker.status w /\
  Worker.status_writes (snd (run_hook env h w)) = Worker.status_writes w /\
  Worker.calls (snd (run_hook env h w)) = Worker.calls w.
Proof.
  pose proof (run_hook_control_state env h w) as H.
  split; [ exact H |].
  unfold control_state in H. inversion H as [[Hp Hr Hpt Hl Hrl Hc Hpb Hs Hj]].
  unfold Worker.status, Worker.status_writes, Worker.calls. rewrite Hp.
  repeat split.
Qed.

Lemma procedure_run_hook (env : Env) (h : hook) (w : Worker.t) :
  Worker.procedure (snd (run_hook env h w)) = Worker.procedure w /\
  Worker.shutdown_calls (snd (run_hook env h w)) = Worker.shutdown_calls w /\
  Worker.recorder (snd (run_hook env h w)) = Worker.recorder w.
Proof.
  pose proof (run_hook_control_state env h w) as H.
  unfold control_state in H. inversion H. auto.
Qed.

Lemma procedure_call_hook (env : Env) (name : hook_name)
    (sel : Procedure.t -> hook) (w : Worker.t) :
  Worker.procedure (snd (call_hook env name sel w))
  = Procedure.note_call name (Worker.procedure w) /\
  Worker.shutdown_calls (snd (call_hook env name sel w))
  = Worker.shutdown_calls w /\
  Worker.recorder (snd (call_hook env name sel w)) = Worker.recorder w.
Proof.
  unfold call_hook.
  destruct (procedure_run_hook env (sel (Worker.procedure w))
              (Worker.set_procedure
                 (Procedure.note_call name (Worker.procedure w)) w))
    as (Hp & Hs & Hr).
  rewrite Hp, Hs, Hr. auto.
Qed.

Lemma procedure_emit (env : Env) (topic record : pyval) (w : Worker.t) :
  Worker.procedure (snd (emit env topic record w)) = Worker.procedure w /\
  Worker.shutdown_calls (snd (emit env topic record w))
  = Worker.shutdown_calls w /\
  Worker.recorder (snd (emit env topic record w)) = Worker.recorder w.
Proof.
  pose proof (respects_emit eq control_state (@eq_refl _) eq_trans'
                passive_control_state env topic record w) as H.
  unfold control_state in H. inversion H. auto.
Qed.

Lemma procedure_logged (level : Z) (message : string) (w : Worker.t) :
  Worker.procedure (logged level message w) = Worker.procedure w /\
  Worker.shutdown_calls (logged level message w) = Worker.shutdown_calls w /\
  Worker.recorder (logged level message w) = Worker.recorder w.
Proof.
  unfold logged.
  destruct (Worker.root_logging w && (Worker.log_level w <=? level)); auto.
Qed.

(** X8.  [update_status] always performs the assignment, and then makes
    exactly one [emit] call, for the topic ['status'] with the value just
    assigned; neither the hooks called nor the stop flag change.  This holds
    however the [emit] ends. *)
Theorem update_status_assigns_then_emits (env : Env) (status : Status)
    (w : Worker.t) :
  Worker.procedure (snd (update_status env status w))
  = Procedure.set_status status (Worker.procedure w) /\
  Worker.emitted (snd (update_status env status w))
  = Worker.emitted w ++ [(PyStr "status", PyStatus status)] /\
  Worker.should_stop_flag (snd (update_status env status w))
  = Worker.should_stop_flag w.
Proof.
  rewrite update_status_eq.
  destruct (procedure_emit env (PyStr "status") (PyStatus status)
              (assigned status w)) as (Hp & _).
  split; [ exact Hp |].
  split; [ exact (emitted_emit env (PyStr "status") (PyStatus status)
                    (assigned status w)) |].
  symmetry.
  exact (respects_emit eq Worker.should_stop_flag (@eq_refl _) eq_trans'
           passive_should_stop_flag env (PyStr "status") (PyStatus status)
           (assigned status w)).
Qed.

Lemma procedure_update_status (env : Env) (status : Status) (w : Worker.t) :
  Worker.procedure (snd (update_status env status w))
  = Procedure.set_status status (Worker.procedure w) /\
  Worker.shutdown_calls (snd (update_status env status w))
  = Worker.shutdown_calls w /\
  Worker.recorder (snd (update_status env status w)) = Worker.recorder w.
Proof.
  rewrite update_status_eq.
  destruct (procedure_emit env (PyStr "status") (PyStatus status)
              (assigned status w)) as (Hp & Hs & Hr).
  auto.
Qed.

Lemma procedure_handle_abort (env : Env) (w : Worker.t) :
  Worker.procedure (snd (handle_abort env w))
  = Procedure.set_status ABORTED (Worker.procedure w) /\
  Worker.shutdown_calls (snd (handle_abort env w)) = Worker.shutdown_calls w /\
  Worker.recorder (snd (handle_abort env w)) = Worker.recorder w.
Proof.
  unfold handle_abort.
  rewrite (bind_returns _ _ w
             (logged ERROR "User stopped Worker execution prematurely" w) tt
             eq_refl).
  destruct (procedure_update_status env ABORTED
              (logged ERROR "User stopped Worker execution prematurely" w))
    as (Hp & Hs & Hr).
  destruct (procedure_logged ERROR "User stopped Worker execution prematurely" w)
    as (Hp' & Hs' & Hr').
  rewrite Hp, Hs, Hr, Hp', Hs', Hr'. auto.
Qed.

Lemma procedure_handle_error (env : Env) (e : exn) (w : Worker.t) :
  (Worker.procedure (snd (handle_error env e w)) = Worker.procedure w \/
   Worker.procedure (snd (handle_error env e w))
   = Procedure.set_status FAILED (Worker.procedure w)) /\
  Worker.shutdown_calls (snd (handle_error env e w)) = Worker.shutdown_calls w /\
  Worker.recorder (snd (handle_error env e w)) = Worker.recorder w.
Proof.
  unfold handle_error.
  rewrite (bind_returns _ _ w (logged ERROR "Worker caught an error" w) tt eq_refl).
  destruct (procedure_logged ERROR "Worker caught an error" w) as (Hp0 & Hs0 & Hr0).
  pose proof (procedure_emit env (PyStr "error") (PyStr (format_exc e))
                (logged ERROR "Worker caught an error" w)) as (Hp1 & Hs1 & Hr1).
  destruct (emit env (PyStr "error") (PyStr (format_exc e))
              (logged ERROR "Worker caught an error" w)) as [[[]|e1] w1] eqn:E;
    simpl in Hp1, Hs1, Hr1.
  - rewrite (bind_returns _ _ _ _ _ E).
    destruct (procedure_update_status env FAILED w1) as (Hp2 & Hs2 & Hr2).
    rewrite Hp2, Hs2, Hr2, Hp1, Hs1, Hr1, Hp0, Hs0, Hr0. auto.
  - rewrite (bind_raises _ _ _ _ _ E). simpl.
    rewrite Hp1, Hs1, Hr1, Hp0, Hs0, Hr0. auto.
Qed.

(** ** [shutdown] again *)

Lemma shutdown_eq (env : Env) (w : Worker.t) :
  shutdown env w =
  match teardown env w with
  | (Returns _, w1) => close env w1
  | (Raises e, w1) => (Raises e, w1)
  end.
Proof.
  unfold shutdown, teardown, close.
  rewrite (bind_returns _ _ w
             (Worker.set_shutdown_calls (S (Worker.shutdown_calls w)) w) tt eq_refl).
  unfold bind at 1.
  destruct (call_hook env Teardown Procedure.shutdown _) as [[[]|e] w1];
    reflexivity.
Qed.

Lemma Status_eqb_RUNNING (s : Status) :
  Status_eqb s RUNNING = true <-> s = RUNNING.
Proof. destruct s; simpl; split; congruence. Qed.

Lemma teardown_state (env : Env) (w : Worker.t) :
  Worker.procedure (snd (teardown env w))
  = Procedure.note_call Teardown (Worker.procedure w) /\
  Worker.shutdown_calls (snd (teardown env w)) = S (Worker.shutdown_calls w) /\
  Worker.recorder (snd (teardown env w)) = Worker.recorder w.
Proof.
  unfold teardown.
  destruct (procedure_call_hook env Teardown Procedure.shutdown
              (Worker.set_shutdown_calls (S (Worker.shutdown_calls w)) w))
    as (Hp & Hs & Hr).
  rewrite Hp, Hs, Hr. auto.
Qed.

(** With a status other than [RUNNING], [close] only closes the two
    channels. *)
Lemma close_settled (env : Env) (w : Worker.t) :
  Worker.status w <> RUNNING ->
  close env w =
  (recorder_enqueue_sentinel ;; monitor_queue_put MNone) w.
Proof.
  intro H. unfold close.
  destruct (Status_eqb (Worker.status w) RUNNING) eqn:E;
    [ apply Status_eqb_RUNNING in E; contradiction |].
  rewrite andb_false_r. reflexivity.
Qed.

Lemma close_procedure (env : Env) (w : Worker.t) :
  (Worker.procedure (snd (close env w)) = Worker.procedure w \/
   Worker.status w = RUNNING /\
   (Worker.procedure (snd (close env w))
    = Procedure.set_status ABORTED (Worker.procedure w) \/
    Worker.procedure (snd (close env w))
    = Procedure.set_status FINISHED (Worker.procedure w))) /\
  Worker.shutdown_calls (snd (close env w)) = Worker.shutdown_calls w.
Proof.
  destruct (Status_eqb (Worker.status w) RUNNING) eqn:E.
  - apply Status_eqb_RUNNING in E. unfold close.
    rewrite (proj2 (Status_eqb_RUNNING _) E), andb_true_r.
    destruct (Worker.should_stop_flag w).
    + destruct (update_status_raises env ABORTED w) as (e & w2 & E2 & _).
      destruct (procedure_update_status env ABORTED w) as (Hp & Hs & _).
      rewrite (bind_raises _ _ _ _ _ E2). rewrite E2 in Hp, Hs. simpl in *.
      split; [ right; split; [ exact E | left; exact Hp ] | exact Hs ].
    + destruct (update_status_raises env FINISHED w) as (e & w2 & E2 & _).
      destruct (procedure_update_status env FINISHED w) as (Hp & Hs & _).
      rewrite (bind_raises _ _ w w2 e);
        [| apply (bind_raises _ _ _ _ _ E2) ].
      rewrite E2 in Hp, Hs. simpl in *.
      split; [ right; split; [ exact E | right; exact Hp ] | exact Hs ].
  - assert (Hn : Worker.status w <> RUNNING).
    { intro H. apply Status_eqb_RUNNING in H. congruence. }
    rewrite (close_settled env w Hn).
    unfold bind, recorder_enqueue_sentinel, monitor_queue_put, modify.
    destruct (Worker.recorder w); simpl; auto.
Qed.

Lemma shutdown_procedure (env : Env) (w : Worker.t) :
  let p1 := Procedure.note_call Teardown (Worker.procedure w) in
  (Worker.procedure (snd (shutdown env w)) = p1 \/
   Worker.status w = RUNNING /\
   (Worker.procedure (snd (shutdown env w)) = Procedure.set_status ABORTED p1 \/
    Worker.procedure (snd (shutdown env w)) = Procedure.set_status FINISHED p1)) /\
  Worker.shutdown_calls (snd (shutdown env w)) = S (Worker.shutdown_calls w).
Proof.
  intro p1. rewrite shutdown_eq.
  destruct (teardown_state env w) as (Hp & Hs & _).
  destruct (teardown env w) as [[[]|e] w1]; simpl in Hp, Hs.
  - destruct (close_procedure env w1) as (Hc & Hs1).
    rewrite Hs1, Hs. split; [| reflexivity ].
    unfold Worker.status in *. rewrite Hp in Hc. exact Hc.
  - simpl. auto.
Qed.

Lemma shutdown_calls_teardown_once_aux (env : Env) (w : Worker.t) :
  Worker.calls (snd (shutdown env w)) = Worker.calls w ++ [Teardown] /\
  Worker.shutdown_calls (snd (shutdown env w)) = S (Worker.shutdown_calls w).
Proof.
  destruct (shutdown_procedure env w) as ([Hp | (_ & [Hp | Hp])] & Hs);
    (split; [| exact Hs ]); unfold Worker.calls; rewrite Hp; reflexivity.
Qed.

(** X9.  [shutdown] calls the teardown hook exactly once, whatever the
    state and however it ends: one [shutdown] adds the teardown hook, and
    nothing else, to the hooks called. *)
Theorem shutdown_calls_teardown_once (env : Env) (w : Worker.t) :
  Worker.calls (snd (shutdown env w)) = Worker.calls w ++ [Teardown] /\
  Worker.shutdown_calls (snd (shutdown env w)) = S (Worker.shutdown_calls w).
Proof. apply shutdown_calls_teardown_once_aux. Qed.

(** X10.  When the status is no longer [RUNNING] (a handler has set it),
    the Recorder is started and the teardown hook returns, [shutdown]
    returns normally having placed the Sentinel on the results channel and
    the closing [None] on the monitor channel, each after everything that
    was there; it assigns no status and emits nothing. *)
Theorem shutdown_closes_channels (env : Env) (w w1 : Worker.t) :
  teardown env w = (Returns tt, w1) ->
  Worker.status w <> RUNNING ->
  Worker.recorder w = true ->
  exists w',
    shutdown env w = (Returns tt, w') /\
    Worker.recorder_queue w' = Worker.recorder_queue w1 ++ [RSentinel] /\
    Worker.monitor_queue w' = Worker.monitor_queue w1 ++ [MNone] /\
    status_record w' = status_record w /\
    Worker.emitted w' = Worker.emitted w1.
Proof.
  intros Ht Hn Hr. rewrite shutdown_eq, Ht.
  destruct (teardown_state env w) as (Hp & _ & Hr1).
  rewrite Ht in Hp, Hr1. simpl in Hp, Hr1.
  assert (Hn1 : Worker.status w1 <> RUNNING).
  { unfold Worker.status in *. now rewrite Hp. }
  rewrite (close_settled env w1 Hn1).
  unfold bind, recorder_enqueue_sentinel, monitor_queue_put, modify.
  rewrite Hr1, Hr. eexists. split; [ reflexivity |]. simpl.
  repeat split.
  unfold status_record, Worker.status, Worker.status_writes. simpl.
  now rewrite Hp.
Qed.

Lemma shutdown_closes_channels_witness :
  exists w',
    shutdown quiet_env (aborted (running INFO true (worker_of idle_procedure)))
    = (Returns tt, w') /\
    Worker.recorder_queue w' = [] ++ [RSentinel] /\
    Worker.monitor_queue w' = [] ++ [MNone] /\
    status_record w' = (ABORTED, [QUEUED; RUNNING; ABORTED]) /\
    Worker.emitted w' = [].
Proof.
  apply (shutdown_closes_channels quiet_env
           (aborted (running INFO true (worker_of idle_procedure)))
           (snd (teardown quiet_env
                   (aborted (running INFO true (worker_of idle_procedure))))));
    [ reflexivity | discriminate | reflexivity ].
Defined.

(** X11.  When the teardown hook raises, [shutdown] ends there with that
    exception: the status is not assigned, even if it is still [RUNNING],
    and neither the Sentinel nor the closing marker is placed. *)
Theorem shutdown_stops_at_failing_teardown (env : Env) (w w1 : Worker.t)
    (e : exn) :
  teardown env w = (Raises e, w1) ->
  shutdown env w = (Raises e, w1) /\
  status_record w1 = status_record w.
Proof.
  intro Ht. rewrite shutdown_eq, Ht. split; [ reflexivity |].
  destruct (teardown_state env w) as (Hp & _). rewrite Ht in Hp. simpl in Hp.
  unfold status_record, Worker.status, Worker.status_writes. now rewrite Hp.
Qed.

Lemma shutdown_stops_at_failing_teardown_witness :
  let w := running INFO false (worker_of stuck_procedure) in
  shutdown quiet_env w = (Raises RuntimeError, snd (teardown quiet_env w)) /\
  status_record (snd (teardown quiet_env w)) = status_record w /\
  Worker.recorder_queue (snd (teardown quiet_env w)) = [] /\
  Worker.status w = RUNNING.
Proof.
  destruct (shutdown_stops_at_failing_teardown quiet_env
              (running INFO false (worker_of stuck_procedure))
              (snd (teardown quiet_env
                      (running INFO false (worker_of stuck_procedure))))
              RuntimeError eq_refl) as (H1 & H2).
  split; [ exact H1 | split; [ exact H2 | split; reflexivity ] ].
Defined.

(** ** The [try] statement of [run] *)

Lemma run_supervise_eq (env : Env) (w : Worker.t) :
  run_supervise env w =
  match finally_clause env (snd (dispatch env (routine env w))) with
  | (Returns _, w') => (fst (dispatch env (routine env w)), w')
  | (Raises e, w') => (Raises e, w')
  end.
Proof.
  unfold run_supervise, try_finally, try_except, dispatch, finally_clause,
    routine.
  destruct ((call_hook env Startup Procedure.startup;;
             call_hook env Execute Procedure.execute) w) as [[[]|e] w1]; simpl.
  - destruct ((shutdown env;; stop) w1) as [[[]|e'] w2]; reflexivity.
  - destruct (is_cancellation e); [| destruct (is_Exception e) ]; simpl.
    + destruct (handle_abort env w1) as [o w2]; simpl.
      destruct ((shutdown env;; stop) w2) as [[[]|e'] w3]; reflexivity.
    + destruct (handle_error env e w1) as [o w2]; simpl.
      destruct ((shutdown env;; stop) w2) as [[[]|e'] w3]; reflexivity.
    + destruct ((shutdown env;; stop) w1) as [[[]|e'] w3]; reflexivity.
Qed.

Lemma snd_run_supervise (env : Env) (w : Worker.t) :
  snd (run_supervise env w)
  = snd (finally_clause env (snd (dispatch env (routine env w)))).
Proof.
  rewrite run_supervise_eq.
  destruct (finally_clause env _) as [[[]|e] w']; reflexivity.
Qed.

Lemma routine_state (env : Env) (w : Worker.t) :
  let p := Worker.procedure w in
  ((exists e, fst (call_hook env Startup Procedure.startup w) = Raises e) /\
   Worker.procedure (snd (routine env w)) = Procedure.note_call Startup p
   \/
   fst (call_hook env Startup Procedure.startup w) = Returns tt /\
   Worker.procedure (snd (routine env w))
   = Procedure.note_call Execute (Procedure.note_call Startup p)) /\
  Worker.shutdown_calls (snd (routine env w)) = Worker.shutdown_calls w.
Proof.
  intro p. unfold routine, bind.
  destruct (procedure_call_hook env Startup Procedure.startup w) as (Hp & Hs & _).
  destruct (call_hook env Startup Procedure.startup w) as [[[]|e] w1];
    simpl in Hp, Hs.
  - destruct (procedure_call_hook env Execute Procedure.execute w1)
      as (Hp2 & Hs2 & _).
    rewrite Hp2, Hs2, Hp, Hs. split; [ right; split |]; reflexivity.
  - simpl. split; [ left; split; [ exists e; reflexivity | exact Hp ] | exact Hs ].
Qed.

Lemma dispatch_state (env : Env) (r : result unit * Worker.t) :
  (Worker.procedure (snd (dispatch env r)) = Worker.procedure (snd r) \/
   Worker.procedure (snd (dispatch env r))
   = Procedure.set_status ABORTED (Worker.procedure (snd r)) \/
   Worker.procedure (snd (dispatch env r))
   = Procedure.set_status FAILED (Worker.procedure (snd r))) /\
  Worker.shutdown_calls (snd (dispatch env r)) = Worker.shutdown_calls (snd r).
Proof.
  destruct r as [[[]|e] w]; simpl; [ auto |].
  destruct (is_cancellation e); [| destruct (is_Exception e) ].
  - destruct (procedure_handle_abort env w) as (Hp & Hs & _). auto.
  - destruct (procedure_handle_error env e w) as ([Hp | Hp] & Hs & _); auto.
  - auto.
Qed.

Lemma finally_clause_state (env : Env) (w : Worker.t) :
  Worker.procedure (snd (finally_clause env w))
  = Worker.procedure (snd (shutdown env w)) /\
  Worker.shutdown_calls (snd (finally_clause env w))
  = Worker.shutdown_calls (snd (shutdown env w)).
Proof.
  unfold finally_clause, bind.
  destruct (shutdown env w) as [[[]|e] w1]; simpl; auto.
Qed.

(** X12.  One execution of the [try] statement of [run] calls [shutdown]
    exactly once and the hooks in the order start, main execution,
    teardown: the main-execution hook is skipped exactly when the start hook
    raised, and the teardown hook is called, once and last, on every path,
    whatever the hooks and the handlers do. *)
Theorem run_supervise_hooks_in_order (env : Env) (w : Worker.t) :
  Worker.shutdown_calls (snd (run_supervise env w))
  = S (Worker.shutdown_calls w) /\
  ((exists e, fst (call_hook env Startup Procedure.startup w) = Raises e) /\
   Worker.calls (snd (run_supervise env w))
   = Worker.calls w ++ [Startup; Teardown]
   \/
   fst (call_hook env Startup Procedure.startup w) = Returns tt /\
   Worker.calls (snd (run_supervise env w))
   = Worker.calls w ++ [Startup; Execute; Teardown]).
Proof.
  rewrite snd_run_supervise.
  destruct (routine_state env w) as (Hr & Hrs).
  destruct (dispatch_state env (routine env w)) as (Hd & Hds).
  set (w2 := snd (dispatch env (routine env w))) in *.
  destruct (finally_clause_state env w2) as (Hf & Hfs).
  destruct (shutdown_calls_teardown_once_aux env w2) as (Hc & Hss).
  split; [ congruence |].
  assert (Hcalls : Worker.calls w2 = Worker.calls (snd (routine env w))).
  { unfold Worker.calls. destruct Hd as [Hd | [Hd | Hd]]; rewrite Hd; reflexivity. }
  assert (Hfc : Worker.calls (snd (finally_clause env w2))
                = Worker.calls (snd (routine env w)) ++ [Teardown]).
  { unfold Worker.calls in *. rewrite Hf, Hc, Hcalls. reflexivity. }
  rewrite Hfc. unfold Worker.calls.
  destruct Hr as [(He & Hp) | (He & Hp)]; rewrite Hp; simpl;
    rewrite <- ?app_assoc; simpl.
  - left. split; [ exact He | reflexivity ].
  - right. split; [ exact He | reflexivity ].
Qed.

Lemma status_record_procedure (w w' : Worker.t) :
  Procedure.status (Worker.procedure w') = Procedure.status (Worker.procedure w) ->
  Procedure.status_writes (Worker.procedure w')
  = Procedure.status_writes (Worker.procedure w) ->
  status_record w' = status_record w.
Proof.
  intros H1 H2. unfold status_record, Worker.status, Worker.status_writes.
  now rewrite H1, H2.
Qed.

Lemma status_record_routine (env : Env) (w : Worker.t) :
  status_record (snd (routine env w)) = status_record w.
Proof.
  destruct (routine_state env w) as ([(_ & Hp) | (_ & Hp)] & _);
    apply status_record_procedure; rewrite Hp; reflexivity.
Qed.

(** The status record after the [finally] clause, from the one before. *)
Lemma status_record_finally (env : Env) (w : Worker.t) :
  status_record (snd (finally_clause env w)) = status_record w \/
  Worker.status w = RUNNING /\
  exists t, (t = ABORTED \/ t = FINISHED) /\
            status_record (snd (finally_clause env w))
            = (t, Worker.status_writes w ++ [t]).
Proof.
  destruct (finally_clause_state env w) as (Hf & _).
  destruct (shutdown_procedure env w) as ([Hp | (Hr & [Hp | Hp])] & _);
    rewrite <- Hf in Hp.
  - left. apply status_record_procedure; rewrite Hp; reflexivity.
  - right. split; [ exact Hr |]. exists ABORTED. split; [ auto |].
    unfold status_record, Worker.status, Worker.status_writes.
    rewrite Hp. reflexivity.
  - right. split; [ exact Hr |]. exists FINISHED. split; [ auto |].
    unfold status_record, Worker.status, Worker.status_writes.
    rewrite Hp. reflexivity.
Qed.

(** X13.  One execution of the [try] statement of [run] assigns the status
    at most once, and only a terminal value: whatever the hooks, the
    environment and the status before, the status record afterwards is the
    one before, or the one before followed by a single value among
    [FINISHED], [ABORTED] and [FAILED], which is then the status. *)
Theorem run_supervise_assigns_status_at_most_once (env : Env) (w : Worker.t) :
  at_most_one_terminal_write (status_record w)
    (status_record (snd (run_supervise env w))).
Proof.
  rewrite snd_run_supervise.
  pose proof (status_record_routine env w) as Hr.
  destruct (dispatch_state env (routine env w)) as (Hd & _).
  set (w2 := snd (dispatch env (routine env w))) in *.
  unfold at_most_one_terminal_write.
  destruct Hd as [Hd | [Hd | Hd]].
  - assert (H2 : status_record w2 = status_record w).
    { rewrite <- Hr. apply status_record_procedure; rewrite Hd; reflexivity. }
    destruct (status_record_finally env w2) as [Hf | (_ & t & Ht & Hf)].
    + left. congruence.
    + right. rewrite Hf. simpl.
      unfold status_record in H2. inversion H2 as [[Hs Hw]].
      rewrite Hw. destruct Ht; subst t; auto.
  - assert (H2 : status_record w2
                 = (ABORTED, Worker.status_writes w ++ [ABORTED])).
    { unfold status_record, Worker.status, Worker.status_writes in *.
      rewrite Hd. simpl. inversion Hr as [[Hs Hw]]. now rewrite Hw. }
    destruct (status_record_finally env w2) as [Hf | (Hrun & _)].
    + right. rewrite Hf, H2. auto.
    + unfold status_record in H2. inversion H2. congruence.
  - assert (H2 : status_record w2
                 = (FAILED, Worker.status_writes w ++ [FAILED])).
    { unfold status_record, Worker.status, Worker.status_writes in *.
      rewrite Hd. simpl. inversion Hr as [[Hs Hw]]. now rewrite Hw. }
    destruct (status_record_finally env w2) as [Hf | (Hrun & _)].
    + right. rewrite Hf, H2. auto.
    + unfold status_record in H2. inversion H2. congruence.
Qed.

(** X14.  When the routine (start hook, then main execution) ends with
    [KeyboardInterrupt] or [SystemExit], the [try] statement of [run]
    leaves the status [ABORTED], assigned exactly once, whatever the status
    was and whether or not a stop had been requested. *)
Theorem run_supervise_cancellation_aborts (env : Env) (w w1 : Worker.t)
    (e : exn) :
  routine env w = (Raises e, w1) ->
  is_cancellation e = true ->
  status_record (snd (run_supervise env w))
  = (ABORTED, Worker.status_writes w ++ [ABORTED]).
Proof.
  intros Hr Hc. rewrite snd_run_supervise.
  pose proof (status_record_routine env w) as Hs. rewrite Hr in *. simpl in Hs.
  unfold dispatch. rewrite Hc.
  destruct (procedure_handle_abort env w1) as (Hp & _).
  set (w2 := snd (handle_abort env w1)) in *.
  assert (H2 : status_record w2
               = (ABORTED, Worker.status_writes w ++ [ABORTED])).
  { unfold status_record, Worker.status, Worker.status_writes in *.
    rewrite Hp. simpl. inversion Hs as [[Hs1 Hw]]. now rewrite Hw. }
  destruct (status_record_finally env w2) as [Hf | (Hrun & _)].
  - now rewrite Hf.
  - unfold status_record in H2. inversion H2. congruence.
Qed.

Lemma run_supervise_cancellation_aborts_witness :
  let w := running INFO false (worker_of interrupted_procedure) in
  status_record (snd (run_supervise quiet_env w))
  = (ABORTED, Worker.status_writes w ++ [ABORTED]).
Proof.
  exact (run_supervise_cancellation_aborts quiet_env
           (running INFO false (worker_of interrupted_procedure))
           (snd (routine quiet_env
                   (running INFO false (worker_of interrupted_procedure))))
           KeyboardInterrupt eq_refl eq_refl).
Defined.

(** X15.  When the routine ends with an exception that is neither a
    cancellation signal nor an [Exception] (such as [GeneratorExit]), no
    handler runs: the statement ends with an exception, and the status is
    whatever [shutdown] alone makes of it, never [FAILED] unless it was
    [FAILED] before. *)
Theorem run_supervise_unhandled_is_not_failed (env : Env) (w w1 : Worker.t)
    (e : exn) :
  routine env w = (Raises e, w1) ->
  is_cancellation e = false ->
  is_Exception e = false ->
  (exists e', fst (run_supervise env w) = Raises e') /\
  status_record (snd (run_supervise env w))
  = status_record (snd (shutdown env w1)) /\
  (Worker.status w <> FAILED ->
   Worker.status (snd (run_supervise env w)) <> FAILED).
Proof.
  intros Hr Hc He.
  pose proof (status_record_routine env w) as Hs. rewrite Hr in Hs. simpl in Hs.
  assert (Hd : dispatch env (routine env w) = (Raises e, w1)).
  { rewrite Hr. unfold dispatch. now rewrite Hc, He. }
  split; [| split ].
  - rewrite run_supervise_eq, Hd. simpl.
    destruct (finally_clause env w1) as [[[]|e'] w']; simpl;
      eexists; reflexivity.
  - rewrite snd_run_supervise, Hd. simpl.
    destruct (finally_clause_state env w1) as (Hf & _).
    apply status_record_procedure; now rewrite Hf.
  - intro Hn. rewrite snd_run_supervise, Hd. simpl.
    assert (Hn1 : Worker.status w1 <> FAILED).
    { unfold status_record in Hs. inversion Hs. congruence. }
    destruct (status_record_finally env w1) as [Hf | (_ & t & Ht & Hf)];
      unfold status_record in Hf; inversion Hf as [[H1 H2]].
    + congruence.
    + rewrite H1. destruct Ht; subst t; discriminate.
Qed.

Lemma run_supervise_unhandled_is_not_failed_witness :
  let w := running INFO false (worker_of closed_procedure) in
  (exists e', fst (run_supervise quiet_env w) = Raises e') /\
  status_record (snd (run_supervise quiet_env w))
  = status_record (snd (shutdown quiet_env (snd (routine quiet_env w)))) /\
  (Worker.status w <> FAILED ->
   Worker.status (snd (run_supervise quiet_env w)) <> FAILED).
Proof.
  exact (run_supervise_unhandled_is_not_failed quiet_env
           (running INFO false (worker_of closed_procedure))
           (snd (routine quiet_env
                   (running INFO false (worker_of closed_procedure))))
           GeneratorExit eq_refl eq_refl eq_refl).
Defined.

(** ** [handle_error] *)

Lemma format_exc_not_empty (e : exn) : format_exc e <> ""%string.
Proof. unfold format_exc. simpl. discriminate. Qed.

Lemma emit_error_tolerant (env : Env) (record : pyval) (w : Worker.t) :
  tolerant env ->
  exists w1, emit env (PyStr "error") record w = (Returns tt, w1) /\
             core w1 = core (noted (PyStr "error") record w).
Proof.
  intro Ht. rewrite (emit_tolerant _ _ _ _ Ht).
  eexists. split; [ reflexivity |]. apply core_emit_entry.
Qed.

Lemma handle_error_reports_then_fails_aux (env : Env) (e : exn)
    (w : Worker.t) :
  tolerant env ->
  status_record (snd (handle_error env e w))
  = (FAILED, Worker.status_writes w ++ [FAILED]).
Proof.
  intro Ht. unfold handle_error.
  rewrite (bind_returns _ _ w (logged ERROR "Worker caught an error" w) tt eq_refl).
  destruct (procedure_logged ERROR "Worker caught an error" w) as (Hp0 & _).
  destruct (emit_error_tolerant env (PyStr (format_exc e))
              (logged ERROR "Worker caught an error" w) Ht) as (w1 & E1 & _).
  destruct (procedure_emit env (PyStr "error") (PyStr (format_exc e))
              (logged ERROR "Worker caught an error" w)) as (Hp1 & _).
  rewrite E1 in Hp1. simpl in Hp1.
  rewrite (bind_returns _ _ _ _ _ E1).
  destruct (procedure_update_status env FAILED w1) as (Hp2 & _).
  unfold status_record, Worker.status, Worker.status_writes.
  rewrite Hp2, Hp1, Hp0. reflexivity.
Qed.

(** X16.  In a tolerant environment [handle_error] makes exactly two [emit]
    calls, in this order: the ['error'] event, whose record is the formatted
    traceback and is never empty, then the ['status'] event for [FAILED],
    the status having been assigned in between.  Neither queue receives the
    failure detail: the results channel and the pairs of the monitor channel
    are as before. *)
Theorem handle_error_reports_then_fails (env : Env) (e : exn) (w : Worker.t) :
  tolerant env ->
  format_exc e <> ""%string /\
  Worker.emitted (snd (handle_error env e w))
  = Worker.emitted w ++ [(PyStr "error", PyStr (format_exc e));
                         (PyStr "status", PyStatus FAILED)] /\
  status_record (snd (handle_error env e w))
  = (FAILED, Worker.status_writes w ++ [FAILED]) /\
  Worker.recorder_queue (snd (handle_error env e w)) = Worker.recorder_queue w /\
  events (Worker.monitor_queue (snd (handle_error env e w)))
  = events (Worker.monitor_queue w).
Proof.
  intro Ht. split; [ apply format_exc_not_empty |].
  unfold handle_error.
  rewrite (bind_returns _ _ w (logged ERROR "Worker caught an error" w) tt eq_refl).
  pose proof (core_logged ERROR "Worker caught an error" w) as H0.
  destruct (emit_error_tolerant env (PyStr (format_exc e))
              (logged ERROR "Worker caught an error" w) Ht) as (w1 & E1 & H1).
  rewrite (bind_returns _ _ _ _ _ E1).
  destruct (update_status_raises env FAILED w1) as (e2 & w2 & E2 & H2).
  rewrite E2. simpl.
  unfold core in *; simpl in *.
  inversion H0 as [[Hp0 He0 Hq0 Hm0 Hs0 Hc0 Hf0]].
  inversion H1 as [[Hp1 He1 Hq1 Hm1 Hs1 Hc1 Hf1]].
  inversion H2 as [[Hp2 He2 Hq2 Hm2 Hs2 Hc2 Hf2]].
  unfold status_record, Worker.status, Worker.status_writes.
  rewrite Hp2, He2, Hp1, He1, Hp0, He0, <- app_assoc. simpl.
  repeat split; congruence.
Qed.

Lemma handle_error_reports_then_fails_witness :
  let w := running INFO false (worker_of failing_procedure) in
  format_exc ValueError <> ""%string /\
  Worker.emitted (snd (handle_error quiet_env ValueError w))
  = Worker.emitted w ++ [(PyStr "error", PyStr (format_exc ValueError));
                         (PyStr "status", PyStatus FAILED)] /\
  status_record (snd (handle_error quiet_env ValueError w))
  = (FAILED, Worker.status_writes w ++ [FAILED]) /\
  Worker.recorder_queue (snd (handle_error quiet_env ValueError w))
  = Worker.recorder_queue w /\
  events (Worker.monitor_queue (snd (handle_error quiet_env ValueError w)))
  = events (Worker.monitor_queue w).
Proof.
  apply (handle_error_reports_then_fails quiet_env ValueError
           (running INFO false (worker_of failing_procedure))).
  split; intros n topic record e H; discriminate H.
Defined.

(** X17.  In a tolerant environment, when the routine ends with an
    exception of class [Exception], the [try] statement of [run] leaves the
    status [FAILED], assigned exactly once: [shutdown] finds it settled and
    does not touch it. *)
Theorem run_supervise_failure_fails (env : Env) (w w1 : Worker.t) (e : exn) :
  tolerant env ->
  routine env w = (Raises e, w1) ->
  is_cancellation e = false ->
  is_Exception e = true ->
  status_record (snd (run_supervise env w))
  = (FAILED, Worker.status_writes w ++ [FAILED]).
Proof.
  intros Ht Hr Hc He. rewrite snd_run_supervise.
  pose proof (status_record_routine env w) as Hs. rewrite Hr in *. simpl in Hs.
  unfold dispatch. rewrite Hc, He.
  pose proof (handle_error_reports_then_fails_aux env e w1 Ht) as H2.
  set (w2 := snd (handle_error env e w1)) in *.
  assert (H3 : status_record w2 = (FAILED, Worker.status_writes w ++ [FAILED])).
  { rewrite H2. unfold status_record in Hs. inversion Hs as [[H4 H5]].
    now rewrite H5. }
  destruct (status_record_finally env w2) as [Hf | (Hrun & _)].
  - now rewrite Hf.
  - unfold status_record in H3. inversion H3. congruence.
Qed.

Lemma run_supervise_failure_fails_witness :
  let w := running INFO false (worker_of failing_procedure) in
  status_record (snd (run_supervise quiet_env w))
  = (FAILED, Worker.status_writes w ++ [FAILED]).
Proof.
  apply (run_supervise_failure_fails quiet_env
           (running INFO false (worker_of failing_procedure))
           (snd (routine quiet_env
                   (running INFO false (worker_of failing_procedure))))
           ValueError);
    [ split; intros n topic record e H; discriminate H
    | reflexivity | reflexivity | reflexivity ].
Defined.

(** ** The stop flag is never cleared *)

Lemma once_set_refl (b : bool) : once_set b b.
Proof. intro H. exact H. Qed.

Lemma once_set_trans (a b c : bool) : once_set a b -> once_set b c -> once_set a c.
Proof. unfold once_set. auto. Qed.

Section KeepsSet.

Variable flag : Worker.t -> bool.
Hypothesis flag_passive : passive flag.

Lemma ks_ret {A} (a : A) : keeps_set flag (ret a).
Proof. apply respects_ret, once_set_refl. Qed.

Lemma ks_raise {A} (e : exn) : keeps_set flag (@raise A e).
Proof. apply respects_raise, once_set_refl. Qed.

Lemma ks_get {A} (g : Worker.t -> A) : keeps_set flag (get g).
Proof. apply respects_get, once_set_refl. Qed.

Lemma ks_modify (g : Worker.t -> Worker.t) :
  (forall w, flag (g w) = flag w) -> keeps_set flag (modify g).
Proof. intros H w. simpl. rewrite H. apply once_set_refl. Qed.

Lemma ks_bind {A B} (c : M A) (k : A -> M B) :
  keeps_set flag c -> (forall a, keeps_set flag (k a)) ->
  keeps_set flag (bind c k).
Proof. apply respects_bind; [ apply once_set_trans ]. Qed.

Lemma ks_try_except {A} (c : M A) (h : exn -> option (M A)) :
  keeps_set flag c -> (forall e k, h e = Some k -> keeps_set flag k) ->
  keeps_set flag (try_except c h).
Proof. apply respects_try_except; [ apply once_set_trans ]. Qed.

Lemma ks_try_finally {A} (c : M A) (fin : M unit) :
  keeps_set flag c -> keeps_set flag fin -> keeps_set flag (try_finally c fin).
Proof. apply respects_try_finally; [ apply once_set_trans ]. Qed.

Lemma ks_log (level : Z) (message : string) : keeps_set flag (log_ level message).
Proof. apply respects_log; [ apply once_set_refl | exact flag_passive ]. Qed.

Lemma ks_emit (env : Env) (topic record : pyval) :
  keeps_set flag (emit env topic record).
Proof.
  apply respects_emit;
    [ apply once_set_refl | apply once_set_trans | exact flag_passive ].
Qed.

Hypothesis flag_stop : keeps_set flag stop.
Hypothesis flag_procedure : forall p w, flag (Worker.set_procedure p w) = flag w.
Hypothesis flag_shutdown_calls :
  forall n w, flag (Worker.set_shutdown_calls n w) = flag w.

Lemma ks_call_hook (env : Env) (name : hook_name) (sel : Procedure.t -> hook) :
  keeps_set flag (call_hook env name sel).
Proof.
  intro w. unfold call_hook.
  eapply once_set_trans;
    [| apply (respects_run_hook once_set flag once_set_refl once_set_trans
                flag_passive flag_stop) ].
  rewrite flag_procedure. apply once_set_refl.
Qed.

Lemma ks_update_status (env : Env) (status : Status) :
  keeps_set flag (update_status env status).
Proof.
  unfold update_status. apply ks_bind; [| intros _; apply ks_emit ].
  apply ks_modify. intro w. apply flag_procedure.
Qed.

Lemma ks_handle_abort (env : Env) : keeps_set flag (handle_abort env).
Proof.
  unfold handle_abort.
  apply ks_bind; [ apply ks_log | intros _; apply ks_update_status ].
Qed.

Lemma ks_handle_error (env : Env) (e : exn) : keeps_set flag (handle_error env e).
Proof.
  unfold handle_error.
  apply ks_bind; [ apply ks_log | intros _ ].
  apply ks_bind; [ apply ks_emit | intros _; apply ks_update_status ].
Qed.

Lemma ks_shutdown (env : Env) : keeps_set flag (shutdown env).
Proof.
  destruct flag_passive as (Hm & _ & Hq & _ & _).
  unfold shutdown.
  apply ks_bind; [ apply ks_modify; intro w; apply flag_shutdown_calls | intros _ ].
  apply ks_bind; [ apply ks_call_hook | intros _ ].
  apply ks_bind; [ apply ks_get | intros stopping ].
  apply ks_bind; [ apply ks_get | intros status ].
  apply ks_bind.
  - destruct (stopping && Status_eqb status RUNNING);
      [ apply ks_update_status |].
    destruct (Status_eqb status RUNNING); [| apply ks_ret ].
    apply ks_bind; [ apply ks_update_status | intros _; apply ks_emit ].
  - intros _. apply ks_bind.
    + intro w. unfold recorder_enqueue_sentinel.
      destruct (Worker.recorder w); simpl; [ rewrite Hq |]; apply once_set_refl.
    + intros _. apply ks_modify. intro w. apply Hm.
Qed.

Lemma ks_run_supervise (env : Env) : keeps_set flag (run_supervise env).
Proof.
  unfold run_supervise.
  apply ks_try_finally.
  - apply ks_try_except.
    + apply ks_bind; [ apply ks_call_hook | intros _; apply ks_call_hook ].
    + intros e k. destruct (is_cancellation e); [| destruct (is_Exception e) ];
        intro E; inversion E; subst.
      * apply ks_handle_abort.
      * apply ks_handle_error.
  - apply ks_bind; [ apply ks_shutdown | intros _; exact flag_stop ].
Qed.

Hypothesis flag_root_logging :
  forall b w, flag (Worker.set_root_logging b w) = flag w.
Hypothesis flag_recorder : forall w, once_set (flag w) (flag (Worker.set_recorder true w)).
Hypothesis flag_context : forall b w, flag (Worker.set_context b w) = flag w.
Hypothesis flag_publisher : forall s w, flag (Worker.set_publisher s w) = flag w.

Lemma ks_connect_publisher (env : Env) : keeps_set flag (connect_publisher env).
Proof.
  intro w. unfold connect_publisher.
  destruct (Worker.port w); [| apply once_set_refl ].
  apply ks_try_except.
  - unfold zmq_Context, context_socket, publisher_bind.
    destruct (tcp env), (context_error env), (socket_error env),
      (bind_error env);
      repeat (first
        [ apply ks_bind; [| intros _ ]
        | apply ks_log | apply ks_raise
        | apply ks_modify; intro; first [ apply flag_context | apply flag_publisher ] ]).
  - intros e k. destruct (is_Exception e); intro E; inversion E.
    apply ks_log.
Qed.

Lemma ks_run_setup (env : Env) : keeps_set flag (run_setup env).
Proof.
  unfold run_setup, install_logging, start_recorder, import_procedures_file.
  apply ks_bind; [ apply ks_modify; intro; apply flag_root_logging | intros _ ].
  apply ks_bind; [ apply ks_log | intros _ ].
  apply ks_bind; [ intro w; apply flag_recorder | intros _ ].
  apply ks_bind; [ destruct (import_error env); [ apply ks_raise | apply ks_ret ]
                 | intros _ ].
  apply ks_bind; [ apply ks_connect_publisher | intros _; apply ks_log ].
Qed.

Lemma ks_run (env : Env) : keeps_set flag (run env).
Proof.
  unfold run.
  apply ks_bind; [ apply ks_run_setup | intros _ ].
  apply ks_bind; [ apply ks_update_status | intros _ ].
  apply ks_bind; [ apply ks_emit | intros _; apply ks_run_supervise ].
Qed.

End KeepsSet.

Lemma stop_keeps_flag : keeps_set Worker.should_stop_flag stop.
Proof. intros w _. reflexivity. Qed.

(** X18.  Nothing in the Worker clears the stop flag: once a stop has been
    requested, [should_stop] stays true through [emit], through any hook,
    through [shutdown], through [run] and through [join], however they
    end. *)
Theorem stop_flag_is_never_cleared (env : Env) (w : Worker.t) :
  Worker.should_stop_flag w = true ->
  (forall topic record,
     Worker.should_stop_flag (snd (emit env topic record w)) = true) /\
  (forall h, Worker.should_stop_flag (snd (run_hook env h w)) = true) /\
  Worker.should_stop_flag (snd (shutdown env w)) = true /\
  Worker.should_stop_flag (snd (run env w)) = true /\
  (forall timeout, Worker.should_stop_flag (snd (join env timeout w)) = true).
Proof.
  intro H. repeat split; intros.
  - apply (ks_emit _ passive_should_stop_flag env topic record w H).
  - apply (respects_run_hook once_set Worker.should_stop_flag once_set_refl
             once_set_trans passive_should_stop_flag stop_keeps_flag env h w H).
  - apply (ks_shutdown _ passive_should_stop_flag stop_keeps_flag
             (fun _ _ => eq_refl) (fun _ _ => eq_refl) env w H).
  - apply (ks_run _ passive_should_stop_flag stop_keeps_flag
             (fun _ _ => eq_refl) (fun _ _ => eq_refl) (fun _ _ => eq_refl)
             (fun w => once_set_refl _) (fun _ _ => eq_refl)
             (fun _ _ => eq_refl) env w H).
  - revert H. unfold join.
    apply (ks_try_except Worker.should_stop_flag).
    + intros w0. unfold super_join.
      destruct (process_join env _ timeout); apply once_set_refl.
    + intros e k. destruct (is_cancellation e); intro E; inversion E.
      apply ks_bind; [ apply ks_log, passive_should_stop_flag | intros _ ].
      apply ks_bind; [ apply stop_keeps_flag | intros _ ].
      intros w0. unfold super_join.
      destruct (process_join env _ 0); apply once_set_refl.
Qed.

Lemma stop_flag_is_never_cleared_witness :
  let w := running INFO true (worker_of measuring_procedure) in
  (forall topic record,
     Worker.should_stop_flag (snd (emit quiet_env topic record w)) = true) /\
  (forall h, Worker.should_stop_flag (snd (run_hook quiet_env h w)) = true) /\
  Worker.should_stop_flag (snd (shutdown quiet_env w)) = true /\
  Worker.should_stop_flag (snd (run quiet_env w)) = true /\
  (forall timeout, Worker.should_stop_flag (snd (join quiet_env timeout w)) = true).
Proof.
  exact (stop_flag_is_never_cleared quiet_env
           (running INFO true (worker_of measuring_procedure)) eq_refl).
Defined.

(** ** [join] again *)



(** ** The set-up of [run] *)

Lemma connect_publisher_eq (env : Env) (w : Worker.t) (p : Z) :
  Worker.port w = Some p ->
  connect_publisher env w =
  try_except
    (zmq_Context env ;;
     log_ DEBUG "Worker ZMQ Context" ;;
     context_socket env ;;
     publisher_bind env ;;
     log_ INFO "Worker connected")
    (fun e =>
       if is_Exception e then
         Some (log_ ERROR "couldn't connect to ZMQ context")
       else None)
    w.
Proof. intro H. unfold connect_publisher. now rewrite H. Qed.

Lemma publisher_logged (level : Z) (message : string) (w : Worker.t) :
  Worker.publisher (logged level message w) = Worker.publisher w.
Proof.
  unfold logged.
  destruct (Worker.root_logging w && (Worker.log_level w <=? level)); reflexivity.
Qed.

(** X20.  Connecting the Publisher is never fatal for an ordinary failure.
    For a Worker with a port and no Publisher yet, if every step that fails
    (creating the context, creating the socket, binding) fails with an
    [Exception], the set-up of the Publisher returns normally and changes
    nothing that matters to the run.  The Publisher is bound exactly when
    both libraries are there and no step failed; after a failed [bind] the
    attribute holds the unbound socket, and it stays [None] when an earlier
    step failed. *)
Theorem connect_publisher_is_not_fatal (env : Env) (w : Worker.t) (p : Z) :
  Worker.port w = Some p ->
  Worker.publisher w = None ->
  (forall e, context_error env = Some e -> is_Exception e = true) ->
  (forall e, socket_error env = Some e -> is_Exception e = true) ->
  (forall e, bind_error env = Some e -> is_Exception e = true) ->
  fst (connect_publisher env w) = Returns tt /\
  core (snd (connect_publisher env w)) = core w /\
  Worker.publisher (snd (connect_publisher env w))
  = (if tcp env then
       match context_error env, socket_error env, bind_error env with
       | None, None, None => Some true
       | None, None, Some _ => Some false
       | _, _, _ => None
       end
     else None).
Proof.
  intros Hport Hpub Hc Hs Hb.
  split; [| split; [ apply quiet_connect_publisher |] ];
    rewrite (connect_publisher_eq env w p Hport);
    unfold try_except, bind, zmq_Context, context_socket, publisher_bind,
      log_, modify, raise;
    destruct (tcp env); simpl; try rewrite publisher_logged; auto;
    destruct (context_error env) as [e1|]; simpl;
      try (rewrite (Hc e1 eq_refl); simpl; try rewrite publisher_logged; auto; fail);
    destruct (socket_error env) as [e2|]; simpl;
      try (rewrite (Hs e2 eq_refl); simpl;
           rewrite ?publisher_logged; simpl; rewrite ?publisher_logged; auto; fail);
    destruct (bind_error env) as [e3|]; simpl;
      try (rewrite (Hb e3 eq_refl); simpl;
           rewrite ?publisher_logged; simpl; rewrite ?publisher_logged; auto; fail);
    rewrite ?publisher_logged; auto.
Qed.

Lemma connect_publisher_is_not_fatal_witness :
  let w := with_port 5888 (worker_of idle_procedure) in
  fst (connect_publisher busy_port_env w) = Returns tt /\
  core (snd (connect_publisher busy_port_env w)) = core w /\
  Worker.publisher (snd (connect_publisher busy_port_env w)) = Some false.
Proof.
  apply (connect_publisher_is_not_fatal busy_port_env
           (with_port 5888 (worker_of idle_procedure)) 5888);
    try reflexivity; intros e H; inversion H; reflexivity.
Defined.


Lemma recorder_stop : keeps_set Worker.recorder stop.
Proof. intros w H. exact H. Qed.

Lemma root_logging_stop : keeps_set Worker.root_logging stop.
Proof. intros w H. exact H. Qed.




(** X22.  When the module of the procedure cannot be imported, [run] ends
    with that exception before it assigns [RUNNING] or emits anything.  The
    Recorder has already been started by then, and its channel never
    receives the Sentinel. *)
Theorem run_import_failure (env : Env) (w : Worker.t) (e : exn) :
  import_error env = Some e ->
  fst (run env w) = Raises e /\
  status_record (snd (run env w)) = status_record w /\
  Worker.emitted (snd (run env w)) = Worker.emitted w /\
  Worker.recorder (snd (run env w)) = true /\
  Worker.recorder_queue (snd (run env w)) = Worker.recorder_queue w.
Proof.
  intro Hi.
  assert (E : run env w
              = (Raises e,
                 Worker.set_recorder true
                   (logged INFO "Worker process started"
                      (Worker.set_root_logging true w)))).
  { unfold run, run_setup, install_logging, start_recorder,
      import_procedures_file.
    rewrite Hi. reflexivity. }
  rewrite E. simpl.
  unfold status_record, Worker.status, Worker.status_writes, logged. simpl.
  destruct (Worker.log_level w <=? INFO); simpl; repeat split.
Qed.

Lemma run_import_failure_witness :
  let w := worker_of idle_procedure in
  fst (run missing_module_env w) = Raises ImportError /\
  status_record (snd (run missing_module_env w)) = status_record w /\
  Worker.emitted (snd (run missing_module_env w)) = Worker.emitted w /\
  Worker.recorder (snd (run missing_module_env w)) = true /\
  Worker.recorder_queue (snd (run missing_module_env w)) = Worker.recorder_queue w.
Proof.
  exact (run_import_failure missing_module_env (worker_of idle_procedure)
           ImportError eq_refl).
Defined.

(** X23.  When the teardown hook has returned, no stop has been requested
    and the status is still [RUNNING], [shutdown] assigns [FINISHED] and no
    other value, and its one [emit] call is the status event for
    [FINISHED].  That call raises, so [shutdown] ends with an exception
    before the progress event, the Sentinel and the closing marker. *)
Theorem shutdown_finishes_when_not_stopped (env : Env) (w w1 : Worker.t) :
  teardown env w = (Returns tt, w1) ->
  Worker.should_stop_flag w1 = false ->
  Worker.status w = RUNNING ->
  exists e w',
    shutdown env w = (Raises e, w') /\
    status_record w' = (FINISHED, Worker.status_writes w ++ [FINISHED]) /\
    Worker.emitted w' = Worker.emitted w1 ++ [(PyStr "status", PyStatus FINISHED)] /\
    Worker.recorder_queue w' = Worker.recorder_queue w1 /\
    events (Worker.monitor_queue w') = events (Worker.monitor_queue w1).
Proof.
  intros Ht Hf Hs. rewrite shutdown_eq, Ht.
  destruct (teardown_state env w) as (Hp & _). rewrite Ht in Hp. simpl in Hp.
  assert (Hs1 : Worker.status w1 = RUNNING).
  { unfold Worker.status in *. now rewrite Hp. }
  unfold close. rewrite Hf, Hs1. cbn [andb Status_eqb].
  destruct (update_status_raises env FINISHED w1) as (e & w2 & E & Hc).
  rewrite (bind_raises _ _ w1 w2 e); [| apply (bind_raises _ _ _ _ _ E) ].
  exists e, w2. split; [ reflexivity |].
  unfold core in Hc; simpl in Hc.
  inversion Hc as [[Hp2 He Hq Hm Hc_s Hc_c Hc_f]].
  unfold status_record, Worker.status, Worker.status_writes.
  rewrite Hp2, Hp. repeat split; assumption.
Qed.

Lemma shutdown_finishes_when_not_stopped_witness :
  let w := running INFO false (worker_of idle_procedure) in
  exists e w',
    shutdown quiet_env w = (Raises e, w') /\
    status_record w' = (FINISHED, Worker.status_writes w ++ [FINISHED]) /\
    Worker.emitted w' = [] ++ [(PyStr "status", PyStatus FINISHED)] /\
    Worker.recorder_queue w' = [] /\
    events (Worker.monitor_queue w') = [].
Proof.
  exact (shutdown_finishes_when_not_stopped quiet_env
           (running INFO false (worker_of idle_procedure))
           (snd (teardown quiet_env (running INFO false (worker_of idle_procedure))))
           eq_refl eq_refl eq_refl).
Defined.

(** ** Cooperative cancellation *)

Lemma close_stopping (env : Env) (w : Worker.t) :
  Worker.should_stop_flag w = true ->
  Worker.status w = RUNNING ->
  Worker.procedure (snd (close env w))
  = Procedure.set_status ABORTED (Worker.procedure w).
Proof.
  intros Hf Hs. unfold close. rewrite Hf, Hs. cbn [andb Status_eqb].
  destruct (update_status_raises env ABORTED w) as (e & w2 & E & _).
  destruct (procedure_update_status env ABORTED w) as (Hp & _).
  rewrite (bind_raises _ _ _ _ _ E). rewrite E in Hp. exact Hp.
Qed.

(** X24.  When the routine returns with a stop requested (it polled
    [should_stop] and gave up, or a stop arrived while it ran), the status
    is still [RUNNING] and the teardown hook returns, the [try] statement
    of [run] leaves the status [ABORTED], assigned exactly once, and never
    [FINISHED]. *)
Theorem run_supervise_stopped_routine_aborts (env : Env) (w w1 : Worker.t) :
  routine env w = (Returns tt, w1) ->
  Worker.should_stop_flag w1 = true ->
  Worker.status w = RUNNING ->
  fst (teardown env w1) = Returns tt ->
  status_record (snd (run_supervise env w))
  = (ABORTED, Worker.status_writes w ++ [ABORTED]).
Proof.
  intros Hr Hf Hs Ht. rewrite snd_run_supervise, Hr. simpl.
  pose proof (status_record_routine env w) as Hs1. rewrite Hr in Hs1.
  simpl in Hs1.
  destruct (finally_clause_state env w1) as (Hfin & _).
  destruct (teardown_state env w1) as (Hp & _).
  assert (Hf2 : Worker.should_stop_flag (snd (teardown env w1)) = true).
  { unfold teardown.
    apply (ks_call_hook Worker.should_stop_flag passive_should_stop_flag
             stop_keeps_flag (fun _ _ => eq_refl) env Teardown
             Procedure.shutdown
             (Worker.set_shutdown_calls (S (Worker.shutdown_calls w1)) w1) Hf). }
  assert (Hsh : Worker.procedure (snd (shutdown env w1))
                = Procedure.set_status ABORTED
                    (Procedure.note_call Teardown (Worker.procedure w1))).
  { rewrite shutdown_eq.
    destruct (teardown env w1) as [[[]|e] w2]; simpl in *; [| discriminate Ht ].
    rewrite close_stopping; [ now rewrite Hp | exact Hf2 |].
    unfold status_record in Hs1. inversion Hs1 as [[H1 H2]].
    unfold Worker.status in *. rewrite Hp. simpl. congruence. }
  unfold status_record, Worker.status, Worker.status_writes in *.
  rewrite Hfin, Hsh. simpl. inversion Hs1 as [[H1 H2]]. now rewrite H2.
Qed.

Lemma run_supervise_stopped_routine_aborts_witness :
  let w := running INFO false (worker_of polling_procedure) in
  status_record (snd (run_supervise quiet_env w))
  = (ABORTED, Worker.status_writes w ++ [ABORTED]) /\
  Worker.recorder_queue (snd (routine quiet_env w)) = [].
Proof.
  split; [| reflexivity ].
  exact (run_supervise_stopped_routine_aborts quiet_env
           (running INFO false (worker_of polling_procedure))
           (snd (routine quiet_env
                   (running INFO false (worker_of polling_procedure))))
           eq_refl eq_refl eq_refl eq_refl).
Defined.
